(** * COREv2: the validation guard and the panel assemblers

    A shallow embedding of the Python sources

    - [test_integer_validation.py]  (the degrees-of-freedom coercion and the
      sample-size check of the t-copula code, as the script replays them),
    - [combine_regime_labels.py] and [combine_returns_tables.py] (the
      per-product assembly of the regime-label and returns panels),
    - [verify_execution_readiness.py] (the check that the files and the
      fixes are in place),

    together with the properties the specification states about them. *)

From Stdlib Require Import ZArith QArith Qcanon Qround Qabs Qminmax Lqa Lia.
From Stdlib Require Import String Ascii List.
From stdpp Require Import base numbers option list sorting strings gmap.
Import ListNotations.

(* ===================================================================== *)
(** * Validation guard ([test_integer_validation.py]) *)
(* ===================================================================== *)

Module Guard.

Local Open Scope Q_scope.

(** A Python number is an [int] or a [float]; a finite float is the rational
    it denotes, so comparisons and roundings below are exact, as they are in
    CPython. *)
Inductive pynum : Type :=
| PyInt (z : Z)
| PyFloat (q : Q).

Definition value (a : pynum) : Q :=
  match a with
  | PyInt z => inject_Z z
  | PyFloat q => q
  end.

(** [isinstance(a, int)] *)
Definition is_int (a : pynum) : bool :=
  match a with
  | PyInt _ => true
  | PyFloat _ => false
  end.

(** [a < b], [a > b], [a >= b] on mixed int/float operands *)
Definition py_lt (a b : pynum) : bool := negb (Qle_bool (value b) (value a)).
Definition py_gt (a b : pynum) : bool := py_lt b a.
Definition py_ge (a b : pynum) : bool := Qle_bool (value b) (value a).

(** The builtins [max(a, b)] and [min(a, b)]: the first argument is kept
    unless the second is strictly greater (resp. strictly smaller). The
    object returned is one of the arguments, with its type. *)
Definition py_max (a b : pynum) : pynum := if py_gt b a then b else a.
Definition py_min (a b : pynum) : pynum := if py_lt b a then b else a.

(** [float.__round__] with no [ndigits]: the nearest integer, a tie going
    to the even neighbour. *)
Definition round_half_even (q : Q) : Z :=
  let f := Qfloor q in
  match Qcompare (q - inject_Z f)%Q (1 # 2)%Q with
  | Lt => f
  | Gt => (f + 1)%Z
  | Eq => if Z.even f then f else (f + 1)%Z
  end.

(** Rounding as the specification means it, against which [py_round] is
    compared: [z] is an integer nearest to [q], the even one at a tie. *)
Definition rounds_to (q : Q) (z : Z) : Prop :=
  Qabs (inject_Z z - q) <= 1 # 2 ∧
  (Qabs (inject_Z z - q) == 1 # 2 → Z.even z = true).

(** The builtin [round(a)]: an [int] for both kinds of argument. *)
Definition py_round (a : pynum) : pynum :=
  match a with
  | PyInt z => PyInt z
  | PyFloat q => PyInt (round_half_even q)
  end.

(** [math.floor(a)] *)
Definition math_floor (a : pynum) : pynum :=
  match a with
  | PyInt z => PyInt z
  | PyFloat q => PyInt (Qfloor q)
  end.

(** [df_int = round(max(1, nu))] *)
Definition df_int (nu : pynum) : pynum := py_round (py_max (PyInt 1) nu).

(** The two assertions of the loop body of [test_integer_validation]. *)
Definition df_asserts (nu : pynum) : bool :=
  is_int (df_int nu) && py_ge (df_int nu) (PyInt 1).

(** [test_values] of the script, and [nu] of [simulate_copula_parameter_fix]. *)
Definition test_values : list pynum :=
  [PyFloat (25 # 10); PyFloat (37 # 10); PyFloat (11 # 10); PyFloat (8 # 10);
   PyFloat (109 # 10); PyFloat (2 # 1); PyFloat (3 # 1)].

Definition df_fixed : pynum := df_int (PyFloat (27 # 10)).

(** [nSim = math.floor(min(1000, size))] *)
Definition nSim (size : pynum) : pynum := math_floor (py_min (PyInt 1000) size).

(** The branch taken on [nSim], once the size line has been printed. *)
Inductive sampling : Type :=
| Proceed (n : pynum)
| SkipSampling (n : pynum).

Definition copula_sampling (size : pynum) : sampling :=
  if py_ge (nSim size) (PyInt 2) then Proceed (nSim size)
  else SkipSampling (nSim size).

Definition proceeds (s : sampling) : bool :=
  match s with
  | Proceed _ => true
  | SkipSampling _ => false
  end.

Definition test_sizes : list pynum :=
  [PyInt 0; PyInt 1; PyInt 50; PyInt 1000; PyInt 5000].

(** [f"{a:4d}"]: the presentation type [d] belongs to [int]; formatting a
    [float] with it raises [ValueError], which is [None] here. *)
Definition format_d (a : pynum) : option Z :=
  match a with
  | PyInt z => Some z
  | PyFloat _ => None
  end.

(** A line of the loop over the sizes. *)
Inductive line : Type :=
| MatrixSize (size nSim : Z)    (* "Matrix size: {size:4d} -> nSim: {nSim:4d}" *)
| Branch (taken : sampling).    (* the line of the branch taken *)

(** One turn of the loop over [test_sizes]: [nSim] is computed, the size
    line is printed, then the line of the branch. [None] is the
    [ValueError] of the size line, which nothing catches. *)
Definition check_size (size : pynum) : option (list line) :=
  let n := nSim size in
  shown_size ← format_d size;
  shown_nSim ← format_d n;
  Some [MatrixSize shown_size shown_nSim; Branch (copula_sampling size)].

End Guard.

(* ===================================================================== *)
(** * Panel assemblers ([combine_regime_labels.py], [combine_returns_tables.py]) *)
(* ===================================================================== *)

Module Panel.

(** ** Strings *)

(** [s.startswith(p)] *)
Fixpoint startswith (s p : string) : bool :=
  match p, s with
  | EmptyString, _ => true
  | String _ _, EmptyString => false
  | String a p', String b s' => if decide (a = b) then startswith s' p' else false
  end.

(** [needle in hay] on strings: [needle] occurs as a substring of [hay]. *)
Fixpoint contains (needle hay : string) : bool :=
  startswith hay needle ||
  match hay with
  | EmptyString => false
  | String _ hay' => contains needle hay'
  end.

(** [s.lower()]; field names of a MAT-file are ASCII. *)
Definition lower_ascii (c : ascii) : ascii :=
  let n := nat_of_ascii c in
  if (65 <=? n)%nat && (n <=? 90)%nat then ascii_of_nat (n + 32) else c.

Fixpoint lower (s : string) : string :=
  match s with
  | EmptyString => EmptyString
  | String c s' => String (lower_ascii c) (lower s')
  end.

(** Truth value of a string-or-[None]: [None] and [''] are false. *)
Definition truthy (o : option string) : bool :=
  match o with
  | Some s => negb (String.eqb s "")
  | None => false
  end.

(** ** Arrays *)

(** An object held by an object array: the value of a struct field, a cell
    of a cell array, a string. The scripts never look inside one; it is
    given by the text [repr] prints for it. *)
Inductive pyobject : Type := PyObject (repr : string).

#[global] Instance pyobject_eq_dec : EqDecision pyobject.
Proof. solve_decision. Defined.

(** An element of an array: a finite value or NaN in a numeric array, an
    object in an object array, a record (one object per field) in a
    structured array. *)
Inductive sample : Type :=
| Num (q : Qc)
| NaN
| Obj (o : pyobject)
| Rec (r : list pyobject).

#[global] Instance sample_eq_dec : EqDecision sample.
Proof. solve_decision. Defined.

Definition isnan (x : sample) : bool :=
  match x with
  | NaN => true
  | _ => false
  end.

(** The [dtype] of an array, as far as the scripts can tell dtypes apart:
    numeric (float; the integer and logical dtypes behave alike, without
    NaN), [object] (and the string dtypes), or structured, with its field
    names. *)
Inductive dtype : Type :=
| Numeric
| Object
| Void (names : list string).

#[global] Instance dtype_eq_dec : EqDecision dtype.
Proof. solve_decision. Defined.

(** A numpy array: its dtype, its shape and its elements in C (row-major)
    order. *)
Record ndarray : Type :=
  NdArray { dtype_of : dtype; shape : list nat; data : list sample }.

#[global] Instance ndarray_eq_dec : EqDecision ndarray.
Proof. solve_decision. Defined.

Definition is_numeric (a : ndarray) : bool :=
  match dtype_of a with
  | Numeric => true
  | _ => false
  end.

Definition ndim (a : ndarray) : nat := length (shape a).
Definition size (a : ndarray) : nat := foldr Nat.mul 1%nat (shape a).

(** The elements fill the shape. *)
Definition wf (a : ndarray) : Prop := length (data a) = size a.

(** [a.flatten()] *)
Definition flatten (a : ndarray) : ndarray := NdArray (dtype_of a) [size a] (data a).

(** [np.array([])] *)
Definition empty_array : ndarray := NdArray Numeric [0%nat] [].

(** [a[k]] of a one-dimensional and [a[i, j]] of a two-dimensional array *)
Definition item1 (a : ndarray) (k : nat) : option sample :=
  match shape a with
  | [n] => if decide (k < n)%nat then data a !! k else None
  | _ => None
  end.

Definition item2 (a : ndarray) (i j : nat) : option sample :=
  match shape a with
  | [r; c] => if decide (i < r ∧ j < c)%nat then data a !! (i * c + j)%nat else None
  | _ => None
  end.

(** Exceptions the scripts can meet. *)
Inductive exn : Type := OSError | TypeError | IndexError | KeyError | ValueError.

(** [np.isnan(a)]: the mask of the NaN elements. The ufunc is defined for
    the numeric dtypes only; on an object or structured array it raises
    [TypeError], whatever the array holds. *)
Definition np_isnan (a : ndarray) : exn + list bool :=
  if is_numeric a then inr (isnan <$> data a) else inl TypeError.

(** [a[~np.isnan(a)]] of a numeric array: the non-NaN elements, as a
    one-dimensional array *)
Definition valid_values (a : ndarray) : list Qc :=
  omap (λ x, match x with Num q => Some q | _ => None end) (data a).

(** [np.unique]: the distinct values in increasing order *)
Definition np_unique (l : list Qc) : list Qc := remove_dups (merge_sort Qcle l).

(** [np.sum(~np.isnan(a))] of a numeric array *)
Definition count_valid (a : ndarray) : nat :=
  length (filter (λ x, isnan x = false) (data a)).

(** What [scipy.io.loadmat] yields for a numeric variable: an array of at
    least two dimensions. *)
Record matarray : Type :=
  MatArray { rows : nat; cols : nat; pages : list nat; elems : list sample }.

Definition to_ndarray (m : matarray) : ndarray :=
  NdArray Numeric (rows m :: cols m :: pages m) (elems m).

(** A variable of a MAT-file as [scipy.io.loadmat] yields it when it is an
    array: a numeric array; a cell array (or a char array), whose elements
    are objects; or a struct array, a structured array with named fields
    (never without a field) in which every field holds one object per
    element of the struct array. *)
Inductive matvalue : Type :=
| Plain (a : matarray)
| Cell (dims : list nat) (items : list pyobject)
| Structured (dims : list nat) (field0 : string * list pyobject)
    (fields : list (string * list pyobject)).

(** [v.dtype.names]; empty for an unstructured array *)
Definition dtype_names (v : matvalue) : list string :=
  match v with
  | Plain _ | Cell _ _ => []
  | Structured _ f fs => (f :: fs).*1
  end.

(** The column of a field of a struct array: the objects it holds, one per
    element. *)
Definition field_lookup (name : string) (fs : list (string * list pyobject)) :
    option (list pyobject) :=
  snd <$> List.find (λ kv, String.eqb (fst kv) name) fs.

(** [v[name]] on a struct array of shape [dims]: an object array of that
    shape. *)
Definition field_array (dims : list nat) (column : list pyobject) : ndarray :=
  NdArray Object dims (Obj <$> column).

(** The records of a struct array with [n] elements, from the columns of
    its fields. *)
Definition records (columns : list (list pyobject)) (n : nat) : list sample :=
  (λ i, Rec (omap (λ column, column !! i) columns)) <$> seq 0 n.

(** The variable as the array it is. *)
Definition as_ndarray (v : matvalue) : ndarray :=
  match v with
  | Plain a => to_ndarray a
  | Cell dims items => NdArray Object dims (Obj <$> items)
  | Structured dims f fs =>
      NdArray (Void (f :: fs).*1) dims
              (records (f :: fs).*2 (foldr Nat.mul 1%nat dims))
  end.

(** ** Environment and console *)

(** The dictionary [scipy.io.loadmat] returns, its keys in insertion order. *)
Definition matfile (V : Type) : Type := list (string * V).

(** [data[key]] *)
Definition getitem {V : Type} (data : matfile V) (key : string) : option V :=
  snd <$> List.find (λ kv, String.eqb (fst kv) key) data.

(** The files the scripts see: which paths exist, what loading a product
    file gives (an exception, or its variables), whether writing the
    combined file succeeds, and what reading it back gives (an exception, or
    the field names [dtype.names] of the structure read back). *)
Record filesystem (V : Type) : Type := FileSystem {
  os_path_exists : string → bool;
  scipy_loadmat : string → exn + matfile V;
  scipy_savemat : string → exn + unit;
  reload_names : string → exn + list string;
}.
Arguments os_path_exists {V}.
Arguments scipy_loadmat {V}.
Arguments scipy_savemat {V}.
Arguments reload_names {V}.

(** One [print] of the scripts. *)
Inductive event : Type :=
| Info (text : string)
| Loading (filename : string)
| LoadedObs (n : nat) (regimes : list Qc)   (* "{n} obs, regimes: {unique}" *)
| LoadedReturns (n : nat)                   (* "{n} returns" *)
| NoDataVariables
| NoReturnsTable
| LoadError (e : exn)
| FileNotFound (filename : string)
| FieldPresent (product : string)
| FieldMissing (product : string)
| ReturnsReport (product : string) (n_returns n_valid : nat)
| NoData (product : string)
| SaveError (e : exn).

(** What a script mutates: the dictionary it fills and the console. *)
Record state : Type := State {
  combined : gmap string ndarray;
  stdout : list event;
}.

(** A statement: it may raise, and leaves the state it reached. *)
Definition M (A : Type) : Type := state → (exn + A) * state.

#[global] Instance M_ret : MRet M := λ A x s, (inr x, s).
#[global] Instance M_bind : MBind M := λ A B f m s,
  match m s with
  | (inl e, s') => (inl e, s')
  | (inr x, s') => f x s'
  end.

Definition raise {A : Type} (e : exn) : M A := λ s, (inl e, s).

Definition lift {A : Type} (r : exn + A) : M A :=
  match r with
  | inl e => raise e
  | inr x => mret x
  end.

Definition or_raise {A : Type} (e : exn) (o : option A) : M A :=
  match o with
  | Some x => mret x
  | None => raise e
  end.

(** [try: body  except Exception as e: handler e] *)
Definition try_except {A : Type} (body : M A) (handler : exn → M A) : M A :=
  λ s, match body s with
       | (inl e, s') => handler e s'
       | (inr x, s') => (inr x, s')
       end.

Definition print (e : event) : M unit :=
  λ s, (inr (), State (combined s) (stdout s ++ [e])).

(** [combined[product] = a] *)
Definition setitem (product : string) (a : ndarray) : M unit :=
  λ s, (inr (), State (<[product := a]> (combined s)) (stdout s)).

Definition get_combined : M (gmap string ndarray) := λ s, (inr (combined s), s).

(** [len(a)]: the first dimension; a zero-dimensional array has none. *)
Definition len (a : ndarray) : M nat := or_raise TypeError (head (shape a)).

Fixpoint for_each {A : Type} (l : list A) (body : A → M unit) : M unit :=
  match l with
  | [] => mret ()
  | x :: l' => body x ;; for_each l' body
  end.

Definition products : list string :=
  ["nodalPrices"; "hubPrices"; "nodalGeneration"; "regup"; "regdown";
   "nonspin"; "hourlyHubForecasts"; "hourlyNodalForecasts"].

(** A script starts with an empty dictionary and an empty console. *)
Definition run {A : Type} (m : M A) : (exn + A) * state := m (State ∅ []).

(** ** [combine_regime_labels.py] *)

Section RegimeLabels.
Context (fs : filesystem matvalue).

Definition regime_filename (product : string) : string :=
  "EDA_Results/regimeLabels_" +:+ product +:+ ".mat".

(** [a.ndim == 2 and (a.shape[0] == 1 or a.shape[1] == 1)] *)
Definition is_row_or_column (a : ndarray) : bool :=
  (ndim a =? 2)%nat &&
  ((nth 0 (shape a) 0 =? 1)%nat || (nth 1 (shape a) 0 =? 1)%nat).

(** [field[0]] *)
Definition first_char (field : string) : option string :=
  match field with
  | EmptyString => None
  | String c _ => Some (String c EmptyString)
  end.

(** The body of the loop over [products]. *)
Definition load_regime_labels (product : string) : M unit :=
  let filename := regime_filename product in
  if os_path_exists fs filename then
    print (Loading filename) ;;
    try_except
      (data ← lift (scipy_loadmat fs filename);
       let main_vars := List.filter (λ key, negb (startswith key "__")) data.*1 in
       match main_vars with
       | var_name :: _ =>
           regime_data ← or_raise KeyError (as_ndarray <$> getitem data var_name);
           let regime_data :=
             if is_row_or_column regime_data then flatten regime_data
             else regime_data in
           setitem product regime_data ;;
           (* [np.isnan(regime_data)] raises unless the dtype is numeric *)
           lift (np_isnan regime_data) ;;
           let valid_regimes := valid_values regime_data in
           let unique_regimes := np_unique valid_regimes in
           n ← len regime_data;
           print (LoadedObs n unique_regimes)
       | [] =>
           print NoDataVariables ;;
           setitem product empty_array
       end)
      (λ e, print (LoadError e) ;; setitem product empty_array)
  else
    print (FileNotFound filename) ;;
    setitem product empty_array.

(** The loop that fills the dictionary. *)
Definition assemble_regime_labels : M unit := for_each products load_regime_labels.

Definition combine_regime_labels : M bool :=
  print (Info "=== Combining Regime Labels for Sprint 2 ===") ;;
  assemble_regime_labels ;;
  print (Info "Saving combined regimeLabels.mat...") ;;
  try_except
    (lift (scipy_savemat fs "EDA_Results/regimeLabels.mat") ;;
     print (Info "Successfully saved EDA_Results/regimeLabels.mat") ;;
     print (Info "=== Verification ===") ;;
     names ← lift (reload_names fs "EDA_Results/regimeLabels.mat");
     print (Info "Combined structure contains:") ;;
     for_each products (λ product,
       initials ← or_raise IndexError (mapM first_char names);
       if bool_decide (product ∈ initials) then print (FieldPresent product)
       else print (FieldMissing product)) ;;
     print (Info "Ready for Sprint 2: Parameter Estimation!") ;;
     mret true)
    (λ e, print (SaveError e) ;; mret false).

End RegimeLabels.

(** ** [combine_returns_tables.py] *)

(** The test of the first loop over the field names. *)
Definition primary_match (product field : string) : bool :=
  contains product field ||
  (negb (String.eqb field "Timestamp") && negb (String.eqb field "Time")).

(** [data_field] after the loop: the field at which it broke, or [None]. *)
Definition data_field (product : string) (field_names : list string) : option string :=
  List.find (primary_match product) field_names.

Definition non_time_fields (field_names : list string) : list string :=
  List.filter
    (λ f, negb (contains "time" (lower f)) && negb (contains "date" (lower f)))
    field_names.

(** The name by which [returns_data] is indexed; [None] is the [IndexError]
    of [field_names[0]] on an empty tuple. *)
Definition selected_field (product : string) (field_names : list string) : option string :=
  if truthy (data_field product field_names) then data_field product field_names
  else
    match non_time_fields field_names with
    | f :: _ => Some f
    | [] => head field_names
    end.

Section ReturnsTables.
Context (fs : filesystem matvalue).

Definition returns_filename (product : string) : string :=
  "EDA_Results/returnsTable_" +:+ product +:+ ".mat".

(** The body of the loop over [products]. *)
Definition load_returns_table (product : string) : M unit :=
  let filename := returns_filename product in
  if os_path_exists fs filename then
    print (Loading filename) ;;
    try_except
      (data ← lift (scipy_loadmat fs filename);
       let main_vars := List.filter (λ key, negb (startswith key "__")) data.*1 in
       if bool_decide ("returnsTable" ∈ main_vars) then
         returns_data ← or_raise KeyError (getitem data "returnsTable");
         match returns_data with
         | Structured dims f0 fields =>
             let field_names := dtype_names returns_data in
             name ← or_raise IndexError (selected_field product field_names);
             column ← or_raise ValueError (field_lookup name (f0 :: fields));
             setitem product (flatten (field_array dims column))
         | Plain _ | Cell _ _ =>
             setitem product (flatten (as_ndarray returns_data))
         end ;;
         c ← get_combined;
         series ← or_raise KeyError (c !! product);
         n ← len series;
         print (LoadedReturns n)
       else
         print NoReturnsTable ;;
         setitem product empty_array)
      (λ e, print (LoadError e) ;; setitem product empty_array)
  else
    print (FileNotFound filename) ;;
    setitem product empty_array.

Definition assemble_returns_tables : M unit := for_each products load_returns_table.

(** The body of the verification loop. *)
Definition report_returns (product : string) : M unit :=
  c ← get_combined;
  match c !! product with
  | Some series =>
      n ← len series;
      if (0 <? n)%nat then
        let n_returns := n in
        (* [np.isnan(series)] raises unless the dtype is numeric *)
        lift (np_isnan series) ;;
        let n_valid := count_valid series in
        print (ReturnsReport product n_returns n_valid)
      else print (NoData product)
  | None => print (NoData product)
  end.

Definition combine_returns_tables : M bool :=
  print (Info "=== Combining Returns Tables for Sprint 2 ===") ;;
  assemble_returns_tables ;;
  print (Info "Saving combined returnsTable.mat...") ;;
  try_except
    (lift (scipy_savemat fs "EDA_Results/returnsTable.mat") ;;
     print (Info "Successfully saved EDA_Results/returnsTable.mat") ;;
     print (Info "=== Verification ===") ;;
     lift (reload_names fs "EDA_Results/returnsTable.mat") ;;
     print (Info "Combined returns table contains:") ;;
     for_each products report_returns ;;
     print (Info "Returns table ready for Sprint 2!") ;;
     mret true)
    (λ e, print (SaveError e) ;; mret false).

End ReturnsTables.

(** ** The panel entry a product's source determines

    These read the entry of a product directly off its source file; the
    assemblers above are compared with them. *)

(** The array kept for a regime-label variable. *)
Definition normalize (a : ndarray) : ndarray :=
  if is_row_or_column a then flatten a else a.

(** The first variable, in key order, whose name does not start with [__]. *)
Definition first_variable {V : Type} (data : matfile V) : option (string * V) :=
  List.find (λ kv, negb (startswith (fst kv) "__")) data.

Definition regime_series (fs : filesystem matvalue) (product : string) : ndarray :=
  if os_path_exists fs (regime_filename product) then
    match scipy_loadmat fs (regime_filename product) with
    | inr data =>
        match first_variable data with
        | Some (_, v) =>
            if is_numeric (as_ndarray v) then normalize (as_ndarray v)
            else empty_array
        | None => empty_array
        end
    | inl _ => empty_array
    end
  else empty_array.

(** What the loop body prints for a product. *)
Definition regime_events (fs : filesystem matvalue) (product : string) : list event :=
  if os_path_exists fs (regime_filename product) then
    Loading (regime_filename product) ::
    match scipy_loadmat fs (regime_filename product) with
    | inr data =>
        match first_variable data with
        | Some (_, v) =>
            if is_numeric (as_ndarray v) then
              let a := normalize (as_ndarray v) in
              [LoadedObs (hd 0%nat (shape a)) (np_unique (valid_values a))]
            else [LoadError TypeError]
        | None => [NoDataVariables]
        end
    | inl e => [LoadError e]
    end
  else [FileNotFound (regime_filename product)].

(** The array of [returns_data] that is flattened and stored. *)
Definition returns_column (product : string) (returns_data : matvalue) : option ndarray :=
  match returns_data with
  | Structured dims f0 fields =>
      name ← selected_field product (dtype_names returns_data);
      field_array dims <$> field_lookup name (f0 :: fields)
  | Plain _ | Cell _ _ => Some (as_ndarray returns_data)
  end.

Definition returns_series (fs : filesystem matvalue) (product : string) : ndarray :=
  if os_path_exists fs (returns_filename product) then
    match scipy_loadmat fs (returns_filename product) with
    | inr data =>
        match getitem data "returnsTable" ≫= returns_column product with
        | Some a => flatten a
        | None => empty_array
        end
    | inl _ => empty_array
    end
  else empty_array.

(** Field selection as the specification words it: a field containing the
    product name, otherwise the first field that does not look like a
    timestamp or date, otherwise the first field. *)
Definition matches_time_pattern (f : string) : bool :=
  contains "time" (lower f) || contains "date" (lower f).

Definition spec_selected_field (product : string) (field_names : list string) : option string :=
  match List.find (contains product) field_names with
  | Some f => Some f
  | None =>
      match List.find (λ f, negb (matches_time_pattern f)) field_names with
      | Some f => Some f
      | None => head field_names
      end
  end.

(** A two-dimensional array with one dimension of size 1, holding [n]
    values: a row or a column. *)
Definition is_vector (a : ndarray) (n : nat) : Prop :=
  shape a = [1%nat; n] ∨ shape a = [n; 1%nat].

(** What the loop body of [combine_returns_tables] prints for a product. *)
Definition returns_events (fs : filesystem matvalue) (product : string) : list event :=
  if os_path_exists fs (returns_filename product) then
    Loading (returns_filename product) ::
    match scipy_loadmat fs (returns_filename product) with
    | inr data =>
        match getitem data "returnsTable" ≫= returns_column product with
        | Some a => [LoadedReturns (size a)]
        | None => [NoReturnsTable]
        end
    | inl e => [LoadError e]
    end
  else [FileNotFound (returns_filename product)].

(** ** Frame conditions on statements *)

(** A statement that only prints: the dictionary is left as it was. *)
Definition console_only {A : Type} (m : M A) : Prop :=
  ∀ s, ∃ evs, snd (m s) = State (combined s) (stdout s ++ evs).

(** A statement that never raises. *)
Definition no_raise {A : Type} (m : M A) : Prop :=
  ∀ s, ∃ x, fst (m s) = inr x.

(** Whether the verification loop of [combine_returns_tables] gets past a
    series: the series is empty, or [np.isnan] is defined for it. *)
Definition reportable (series : ndarray) : bool :=
  match shape series with
  | 0%nat :: _ => true
  | _ :: _ => is_numeric series
  | [] => false
  end.

(** The line of the verification loop of [combine_returns_tables] for one
    product whose series it gets past, given the dictionary. *)
Definition report_line (c : gmap string ndarray) (product : string) : event :=
  match c !! product with
  | Some series =>
      match shape series with
      | n :: _ =>
          if (0 <? n)%nat then ReturnsReport product n (count_valid series)
          else NoData product
      | [] => NoData product
      end
  | None => NoData product
  end.


End Panel.

(* ===================================================================== *)
(** * Sample inputs *)
(* ===================================================================== *)

Module Examples.
Import Panel.

Definition num (z : Z) : sample := Num (Qc_of_Z z).

(** The metadata entries of a loaded file; their values are never read. *)
Definition metadata {V : Type} (v : V) : matfile V :=
  [("__header__", v); ("__version__", v); ("__globals__", v)].

(** Regime labels: a 3x1 column for [nodalPrices], an unreadable file for
    [regup], nothing for the other products. *)
Definition labels_vars : matfile matvalue :=
  metadata (Plain (MatArray 0 0 [] [])) ++
  [("regimeLabels", Plain (MatArray 3 1 [] [num 1; num 1; NaN]))].

Definition labels_fs : filesystem matvalue :=
  FileSystem matvalue
    (λ path, bool_decide (path = "EDA_Results/regimeLabels_nodalPrices.mat")
             || bool_decide (path = "EDA_Results/regimeLabels_regup.mat"))
    (λ path, if bool_decide (path = "EDA_Results/regimeLabels_nodalPrices.mat")
             then inr labels_vars else inl ValueError)
    (λ _, inr ())
    (λ _, inr products).

(** Returns: a 3x1 column for [nodalPrices], a 1x3 row for [hubPrices], a
    0x0 array for [regup], nothing for the other products. *)
Definition returns_fs : filesystem matvalue :=
  FileSystem matvalue
    (λ path, bool_decide (path = "EDA_Results/returnsTable_nodalPrices.mat")
             || bool_decide (path = "EDA_Results/returnsTable_hubPrices.mat")
             || bool_decide (path = "EDA_Results/returnsTable_regup.mat"))
    (λ path,
       if bool_decide (path = "EDA_Results/returnsTable_nodalPrices.mat")
       then inr (metadata (Plain (MatArray 0 0 [] [])) ++
                 [("returnsTable", Plain (MatArray 3 1 [] [num 7; NaN; num 9]))])
       else if bool_decide (path = "EDA_Results/returnsTable_hubPrices.mat")
       then inr [("returnsTable", Plain (MatArray 1 3 [] [num 1; num 2; num 3]))]
       else if bool_decide (path = "EDA_Results/returnsTable_regup.mat")
       then inr [("returnsTable", Plain (MatArray 0 0 [] []))]
       else inl OSError)
    (λ _, inr ())
    (λ _, inr products).



(** Regime labels of [nodalPrices] saved as a 1x1 struct with the field
    [labels], in front of a numeric variable. *)
Definition labels_record : matvalue :=
  Structured [1%nat; 1%nat] ("labels", [PyObject "array([[1.], [1.], [2.]])"]) [].

Definition struct_labels_vars : matfile matvalue :=
  metadata (Plain (MatArray 0 0 [] [])) ++
  [("regimeLabels", labels_record);
   ("counts", Plain (MatArray 1 2 [] [num 2; num 1]))].

Definition struct_labels_fs : filesystem matvalue :=
  FileSystem matvalue
    (λ path, bool_decide (path = "EDA_Results/regimeLabels_nodalPrices.mat"))
    (λ path, if bool_decide (path = "EDA_Results/regimeLabels_nodalPrices.mat")
             then inr struct_labels_vars else inl OSError)
    (λ _, inr ())
    (λ _, inr products).

End Examples.

(* ===================================================================== *)
(** * Readiness check ([verify_execution_readiness.py]) *)
(* ===================================================================== *)

Module Readiness.

(** ** Paths and patterns *)

Definition sep : string := "/".

(** [s.endswith('/')] *)
Fixpoint endswith_sep (s : string) : bool :=
  match s with
  | EmptyString => false
  | String c EmptyString => Ascii.eqb c "/"
  | String _ s' => endswith_sep s'
  end.

(** [os.path.join(a, b)] of [posixpath] *)
Definition os_path_join (a b : string) : string :=
  if Panel.startswith b sep then b
  else if String.eqb a "" || endswith_sep a then a +:+ b
  else a +:+ sep +:+ b.

(** ["=" * n] *)
Fixpoint str_repeat (s : string) (n : nat) : string :=
  match n with
  | O => EmptyString
  | S n' => s +:+ str_repeat s n'
  end.

(** The newline character of ["\n..."]. *)
Definition nl : string := String (ascii_of_nat 10) EmptyString.

Definition is_alnum (c : ascii) : bool :=
  let n := nat_of_ascii c in
  ((48 <=? n) && (n <=? 57) || (65 <=? n) && (n <=? 90) || (97 <=? n) && (n <=? 122))%nat.

(** The characters with a special meaning in a regular expression, the
    backslash apart. *)
Definition is_meta (c : ascii) : bool :=
  bool_decide (c ∈ list_ascii_of_string ".^$*+?{}[]|()").

(** The text a regular expression denotes when it is a sequence of ordinary
    characters and of backslash-escaped characters that are neither letters
    nor digits; [None] for any other pattern. *)
Fixpoint re_literal (pattern : string) : option string :=
  match pattern with
  | EmptyString => Some EmptyString
  | String c p' =>
      if Ascii.eqb c "\" then
        match p' with
        | EmptyString => None
        | String d p'' =>
            if is_alnum d then None else String d <$> re_literal p''
        end
      else if is_meta c then None
      else String c <$> re_literal p'
  end.

(** ** The host *)

Inductive exn : Type :=
| FileNotFoundError
| PermissionError
| IsADirectoryError
| UnicodeDecodeError
| ReError.

#[global] Instance exn_eq_dec : EqDecision exn.
Proof. solve_decision. Defined.

(** What the script sees of the machine: which paths exist, what opening and
    reading a file gives, and what [re.search] answers for the patterns
    that [re_literal] does not cover. *)
Record host : Type := Host {
  os_path_exists : string → bool;
  read_text : string → exn + string;
  re_engine : string → string → exn + bool;
}.

(** [re.search(pattern, content, re.MULTILINE)] as a truth value: a pattern
    that denotes a text is found exactly where that text occurs. *)
Definition re_search (h : host) (pattern content : string) : exn + bool :=
  match re_literal pattern with
  | Some text => inr (Panel.contains text content)
  | None => re_engine h pattern content
  end.

(** ** Statements: the console, and exceptions *)

Definition R (A : Type) : Type := list string → (exn + A) * list string.

#[global] Instance R_ret : MRet R := λ A x out, (inr x, out).
#[global] Instance R_bind : MBind R := λ A B f m out,
  match m out with
  | (inl e, out') => (inl e, out')
  | (inr x, out') => f x out'
  end.

Definition lift {A : Type} (r : exn + A) : R A := λ out, (r, out).

Definition print (line : string) : R unit := λ out, (inr (), out ++ [line]).

(** [try: body  except FileNotFoundError: handler]; any other exception
    goes on. *)
Definition try_except_FileNotFoundError {A : Type} (body handler : R A) : R A :=
  λ out, match body out with
         | (inl FileNotFoundError, out') => handler out'
         | r => r
         end.

(** A loop [for x in l: if not check(x): all_checks_passed = False], from
    the value [all_checks_passed] has before it. *)
Fixpoint for_checks {A : Type} (l : list A) (check : A → R bool)
    (all_checks_passed : bool) : R bool :=
  match l with
  | [] => mret all_checks_passed
  | x :: l' =>
      check x ≫= λ ok : bool,
      for_checks l' check (if negb ok then false else all_checks_passed)
  end.

Section Script.
Context (h : host).

Definition check_file_exists (filepath description : string) : R bool :=
  if os_path_exists h filepath then
    print ("✅ " +:+ description +:+ ": " +:+ filepath) ;;
    mret true
  else
    print ("❌ " +:+ description +:+ ": " +:+ filepath +:+ " (NOT FOUND)") ;;
    mret false.

Definition check_code_fix (filepath pattern description : string) : R bool :=
  try_except_FileNotFoundError
    (content ← lift (read_text h filepath);
     lift (re_search h pattern content) ≫= λ found : bool,
     if found then
       print ("✅ " +:+ description) ;;
       mret true
     else
       print ("❌ " +:+ description) ;;
       mret false)
    (print ("❌ " +:+ description +:+ " - File not found: " +:+ filepath) ;;
     mret false).

Definition base_path : string := "/Users/chayanvohra/Downloads/COREv2".

Definition essential_files : list (string * string) :=
  [("userConfig.m", "User Configuration");
   ("runEmpiricalCopulaBootstrapping.m", "Sprint 3 Script");
   ("runSimulationEngine.m", "Sprint 5 Script");
   ("fit_copula_per_regime.m", "Copula Fitting Function");
   ("custom_infer.m", "GARCH Inference Fallback")].

Definition data_files : list string :=
  ["EDA_Results/returnsTable.mat";
   "EDA_Results/innovationsStruct.mat";
   "EDA_Results/regimeLabels.mat"].

Definition fixes : list (string * string) :=
  [("regimeCopulas\(r\)\.df = round\(max\(1, nu\)\)",
    "t-copula df integer conversion in fitting");
   ("df_int = round\(max\(1, regimeCopulas\(r\)\.df\)\)",
    "t-copula df integer validation in sampling");
   ("nSim = floor\(min\(1000, size\(innovMat,1\)\)\)",
    "Sample size validation");
   ("if nSim >= 2", "Minimum sample size check")].

Definition sim_fixes : list (string * string) :=
  [("fieldnames\(returnsTable\)", "Struct-based data structure support");
   ("df_int = round\(max\(1, copula\.df\)\)",
    "t-copula df integer validation in simulation");
   ("copularnd\('t', copula\.params, 1, df_int\)",
    "Integer df parameter in copularnd call")].

Definition main : R bool :=
  print "🔍 CORE Sprint 3 & 5 Execution Readiness Check" ;;
  print (str_repeat "=" 50) ;;
  let all_checks_passed := true in
  (* 1. Check essential files exist *)
  print (nl +:+ "📁 Essential Files Check:") ;;
  (for_checks essential_files
       (λ '(filename, description),
          let filepath := os_path_join base_path filename in
          check_file_exists filepath description)
       all_checks_passed)
    ≫= λ all_checks_passed : bool,
  (* 2. Check data dependencies *)
  print (nl +:+ "📊 Data Dependencies Check:") ;;
  (for_checks data_files
       (λ data_file,
          let filepath := os_path_join base_path data_file in
          check_file_exists filepath ("Data file: " +:+ data_file))
       all_checks_passed)
    ≫= λ all_checks_passed : bool,
  (* 3. Check copula structure was cleaned *)
  print (nl +:+ "🧹 Cleanup Check:") ;;
  let copula_file := os_path_join base_path "EDA_Results/copulaStruct.mat" in
  (if negb (os_path_exists h copula_file) then
     print "✅ Old copula structure removed (will be regenerated)"
   else
     print "⚠️  Old copula structure still exists (should be regenerated)") ;;
  (* 4. Check critical code fixes *)
  print (nl +:+ "🔧 Code Fixes Verification:") ;;
  let fit_copula_path := os_path_join base_path "fit_copula_per_regime.m" in
  (for_checks fixes
       (λ '(pattern, description),
          check_code_fix fit_copula_path pattern
            ("Fix in fit_copula_per_regime.m: " +:+ description))
       all_checks_passed)
    ≫= λ all_checks_passed : bool,
  let sim_engine_path := os_path_join base_path "runSimulationEngine.m" in
  (for_checks sim_fixes
       (λ '(pattern, description),
          check_code_fix sim_engine_path pattern
            ("Fix in runSimulationEngine.m: " +:+ description))
       all_checks_passed)
    ≫= λ all_checks_passed : bool,
  (* 5. Configuration check *)
  print (nl +:+ "⚙️  Configuration Check:") ;;
  let config_path := os_path_join base_path "userConfig.m" in
  check_code_fix config_path "config\.copulaType = 't'" "t-copula configuration"
    ≫= λ configured : bool,
  (if configured then
     print "  📝 System configured to use t-copulas (our fixes are relevant)"
   else mret ()) ;;
  (* 6. Summary *)
  print (nl +:+ str_repeat "=" 50) ;;
  (if all_checks_passed then
     print "🎉 ALL CHECKS PASSED!" ;;
     print (nl +:+ "📋 Ready for execution:") ;;
     print "   1. Run Sprint 3: runEmpiricalCopulaBootstrapping('userConfig.m')" ;;
     print "   2. Run Sprint 5: runSimulationEngine('userConfig.m')" ;;
     print "   3. Continue with Sprints 6 & 7" ;;
     print (nl +:+ "💡 Our integer validation fixes should resolve the 'Size inputs must be integers' error.")
   else
     print "⚠️  SOME CHECKS FAILED!" ;;
     print "   Please review the failed checks above before proceeding.") ;;
  mret all_checks_passed.

(** The status the interpreter ends with: [exit(0 if success else 1)], and 1
    after an uncaught exception. *)
Definition exit_status : Z :=
  match main [] with
  | (inr true, _) => 0
  | _ => 1
  end.

End Script.

(** ** What the checks read

    The text whose presence a check looks for, and whether a file has it;
    the script above is compared with these. *)

Definition has_text (h : host) (path text : string) : bool :=
  match read_text h path with
  | inr content => Panel.contains text content
  | inl _ => false
  end.

(** Opening and reading [path] either works or fails with
    [FileNotFoundError]. *)
Definition readable_or_absent (h : host) (path : string) : Prop :=
  match read_text h path with
  | inr _ => True
  | inl e => e = FileNotFoundError
  end.

Definition in_base (name : string) : string := os_path_join base_path name.

(** The texts the seven fixes look for. *)
Definition fit_copula_texts : list string :=
  ["regimeCopulas(r).df = round(max(1, nu))";
   "df_int = round(max(1, regimeCopulas(r).df))";
   "nSim = floor(min(1000, size(innovMat,1)))";
   "if nSim >= 2"].

Definition sim_engine_texts : list string :=
  ["fieldnames(returnsTable)";
   "df_int = round(max(1, copula.df))";
   "copularnd('t', copula.params, 1, df_int)"].

(** The verdict read off the host. *)
Definition verdict (h : host) : bool :=
  forallb (λ f, os_path_exists h (in_base (fst f))) essential_files &&
  forallb (λ f, os_path_exists h (in_base f)) data_files &&
  forallb (has_text h (in_base "fit_copula_per_regime.m")) fit_copula_texts &&
  forallb (has_text h (in_base "runSimulationEngine.m")) sim_engine_texts.

(** ** Outcomes of a statement *)

(** [m] returns [x] whatever was printed before, after printing lines that
    satisfy [Q]. *)
Definition outputs {A : Type} (Q : list string → Prop) (m : R A) (x : A) : Prop :=
  ∃ lines, Q lines ∧ ∀ out, m out = (inr x, out ++ lines).

(** [m] raises [e] whatever was printed before. *)
Definition raises {A : Type} (m : R A) (e : exn) : Prop :=
  ∀ out, ∃ out', m out = (inl e, out').

Definition passed_banner : string := "🎉 ALL CHECKS PASSED!".
Definition failed_banner : string := "⚠️  SOME CHECKS FAILED!".

(** A line that is neither banner. *)
Definition plain (line : string) : Prop := line ≠ passed_banner ∧ line ≠ failed_banner.


(** The lines of a run that ends with the verdict [v]: plain lines, the
    banner of [v], plain lines. *)
Definition summary_of (v : bool) (lines : list string) : Prop :=
  ∃ pre post,
    lines = pre ++ (if v then passed_banner else failed_banner) :: post ∧
    Forall plain pre ∧ Forall plain post.

End Readiness.


Module ReadinessExamples.
Import Readiness.

(** A machine on which every file is in place and holds the fixes, except
    that [userConfig.m] cannot be opened for lack of permission. *)
Definition fit_copula_source : string :=
  "regimeCopulas(r).df = round(max(1, nu)); df_int = round(max(1, regimeCopulas(r).df)); nSim = floor(min(1000, size(innovMat,1))); if nSim >= 2".

Definition sim_engine_source : string :=
  "names = fieldnames(returnsTable); df_int = round(max(1, copula.df)); u = copularnd('t', copula.params, 1, df_int);".

Definition ready_host : host :=
  Host (λ path, negb (String.eqb path (in_base "EDA_Results/copulaStruct.mat")))
       (λ path,
          if String.eqb path (in_base "fit_copula_per_regime.m") then inr fit_copula_source
          else if String.eqb path (in_base "runSimulationEngine.m") then inr sim_engine_source
          else if String.eqb path (in_base "userConfig.m") then inr "config.copulaType = 'gaussian'"
          else inl FileNotFoundError)
       (λ _ _, inl ReError).

Definition locked_host : host :=
  Host (os_path_exists ready_host)
       (λ path,
          if String.eqb path (in_base "userConfig.m") then inl PermissionError
          else read_text ready_host path)
       (re_engine ready_host).

End ReadinessExamples.

(* ===================================================================== *)
(** * Further notions on the panel assemblers *)
(* ===================================================================== *)

Module PanelNotions.
Import Panel.

(** From a state whose dictionary is [c], the statement [m] leaves the
    dictionary as it is and prints only events that satisfy [P]. *)
Definition prints_at {A : Type} (c : gmap string ndarray) (P : event → Prop)
    (m : M A) : Prop :=
  ∀ s, combined s = c →
    ∃ evs, snd (m s) = State c (stdout s ++ evs) ∧ Forall P evs.

(** The events of the verification of [combine_regime_labels]. *)
Definition regime_verification_event (e : event) : Prop :=
  match e with
  | Info _ | FieldPresent _ | FieldMissing _ | SaveError _ => True
  | _ => False
  end.

(** The events of the verification of [combine_returns_tables]: a report is
    the report line of a product of the universe whose series the loop gets
    past. *)
Definition returns_verification_event (c : gmap string ndarray) (e : event) : Prop :=
  match e with
  | Info _ | SaveError _ => True
  | NoData p | ReturnsReport p _ _ =>
      p ∈ products ∧ report_line c p = e ∧
      ∀ series, c !! p = Some series → reportable series = true
  | _ => False
  end.

(** The events of the loading loops. *)
Definition load_event (e : event) : Prop :=
  match e with
  | Loading _ | LoadedObs _ _ | LoadedReturns _ | NoDataVariables
  | NoReturnsTable | LoadError _ | FileNotFound _ => True
  | _ => False
  end.

(** Every array of a returns file has as many elements as its shape says. *)
Definition matvalue_wf (v : matvalue) : Prop :=
  match v with
  | Plain _ | Cell _ _ => wf (as_ndarray v)
  | Structured dims f0 fields =>
      Forall (λ kv, wf (field_array dims (snd kv))) (f0 :: fields)
  end.

Definition returns_fs_wf (fs : filesystem matvalue) : Prop :=
  ∀ path vars k v,
    scipy_loadmat fs path = inr vars → (k, v) ∈ vars → matvalue_wf v.

(** The first field, in declared order, that passes the test of the first
    loop, and otherwise the first field. *)
Definition first_match_or_head (product : string) (field_names : list string) : option string :=
  match data_field product field_names with
  | Some f => Some f
  | None => head field_names
  end.



End PanelNotions.

Module MoreExamples.
Import Panel Examples.

(** Regime labels of [regup] stored as a 2x3 matrix; the combined file
    cannot be written. *)
Definition matrix_labels : matarray :=
  MatArray 2 3 [] [num 1; num 2; NaN; num 2; num 2; num 1].

Definition matrix_vars : matfile matvalue :=
  metadata (Plain (MatArray 0 0 [] [])) ++ [("regimeLabels", Plain matrix_labels)].

Definition matrix_fs : filesystem matvalue :=
  FileSystem matvalue
    (λ path, bool_decide (path = "EDA_Results/regimeLabels_regup.mat"))
    (λ path, if bool_decide (path = "EDA_Results/regimeLabels_regup.mat")
             then inr matrix_vars else inl OSError)
    (λ _, inl OSError)
    (λ _, inl OSError).

(** A returns file of [nonspin] whose data sits under another name. *)
Definition renamed_vars : matfile matvalue :=
  [("returns", Plain (MatArray 1 2 [] [num 1; num 2]))].

Definition renamed_fs : filesystem matvalue :=
  FileSystem matvalue
    (λ path, bool_decide (path = "EDA_Results/returnsTable_nonspin.mat"))
    (λ path, if bool_decide (path = "EDA_Results/returnsTable_nonspin.mat")
             then inr renamed_vars else inl OSError)
    (λ _, inr ())
    (λ _, inr products).

End MoreExamples.

(* ===================================================================== *)
(** * Properties of the validation guard *)
(* ===================================================================== *)

Module GuardProofs.
Import Guard.
Local Open Scope Q_scope.

Lemma inject_Z_succ (z : Z) : inject_Z (z + 1) == inject_Z z + 1.
Proof. rewrite inject_Z_plus. reflexivity. Qed.

Lemma floor_bounds (q : Q) : inject_Z (Qfloor q) <= q ∧ q < inject_Z (Qfloor q) + 1.
Proof.
  split; [apply Qfloor_le |].
  rewrite <- inject_Z_succ. apply Qlt_floor.
Qed.

Lemma Qabs_half_cases (d : Q) :
  -(1#2) <= d <= 1#2 → Qabs d <= 1 # 2.
Proof. intros H. apply Qabs_Qle_condition. exact H. Qed.

Lemma Qabs_eq_half (d : Q) : Qabs d == 1 # 2 → d == 1#2 ∨ d == -(1#2).
Proof.
  intros H. destruct (Qlt_le_dec d 0) as [Hn | Hp].
  - right. rewrite Qabs_neg in H by lra. lra.
  - left. rewrite Qabs_pos in H by lra. lra.
Qed.

Lemma round_half_even_rounds (q : Q) : rounds_to q (round_half_even q).
Proof.
  unfold rounds_to, round_half_even.
  destruct (floor_bounds q) as [Hlo Hhi].
  set (f := Qfloor q) in *.
  destruct (Qcompare (q - inject_Z f) (1 # 2)) eqn:Hc.
  - apply Qeq_alt in Hc.
    destruct (Z.even f) eqn:He.
    + split; [apply Qabs_half_cases; lra | auto].
    + split.
      * apply Qabs_half_cases. rewrite inject_Z_succ. lra.
      * intros _. rewrite Z.even_add, He. reflexivity.
  - apply Qlt_alt in Hc. split.
    + apply Qabs_half_cases; lra.
    + intros H. apply Qabs_eq_half in H. lra.
  - apply Qgt_alt in Hc. split.
    + apply Qabs_half_cases. rewrite inject_Z_succ. lra.
    + intros H. apply Qabs_eq_half in H. rewrite inject_Z_succ in H. lra.
Qed.

Lemma round_half_even_ge_floor (q : Q) : (Qfloor q <= round_half_even q)%Z.
Proof.
  unfold round_half_even.
  destruct (Qcompare _ _); [destruct (Z.even _) |..]; lia.
Qed.

Lemma rounds_to_integer (z : Z) : rounds_to (inject_Z z) z.
Proof.
  unfold rounds_to.
  assert (H : inject_Z z - inject_Z z == 0) by lra.
  split.
  - apply Qabs_half_cases. lra.
  - intros E. apply Qabs_eq_half in E. lra.
Qed.

Lemma rounds_to_proper (q q' : Q) (z : Z) : q == q' → rounds_to q z → rounds_to q' z.
Proof.
  unfold rounds_to. intros E [H1 H2].
  assert (Hd : inject_Z z - q' == inject_Z z - q) by lra.
  rewrite Hd. auto.
Qed.

Lemma df_int_rounds (nu : pynum) :
  ∃ z : Z,
    df_int nu = PyInt z ∧ is_int (df_int nu) = true ∧ (1 <= z)%Z ∧
    rounds_to (Qmax 1 (value nu)) z.
Proof.
  unfold df_int, py_max, py_gt, py_lt. cbn [value].
  change (inject_Z 1) with 1.
  destruct (Qle_bool (value nu) 1) eqn:Hle; cbn [negb].
  - apply Qle_bool_iff in Hle. exists 1%Z.
    split; [reflexivity |]. split; [reflexivity |]. split; [lia |].
    apply rounds_to_proper with (inject_Z 1); [| apply rounds_to_integer].
    rewrite Q.max_l by exact Hle. reflexivity.
  - assert (Hgt : 1 < value nu).
    { apply Qnot_le_lt. intros H. apply Qle_bool_iff in H. congruence. }
    assert (Hmax : value nu == Qmax 1 (value nu)).
    { rewrite Q.max_r; [reflexivity | apply Qlt_le_weak; exact Hgt]. }
    destruct nu as [n | q]; cbn [py_round value is_int] in *.
    + exists n.
      split; [reflexivity |]. split; [reflexivity |]. split.
      * change 1 with (inject_Z 1) in Hgt. rewrite <- Zlt_Qlt in Hgt. lia.
      * apply rounds_to_proper with (inject_Z n); [exact Hmax | apply rounds_to_integer].
    + exists (round_half_even q).
      split; [reflexivity |]. split; [reflexivity |]. split.
      * pose proof (round_half_even_ge_floor q).
        assert (1 <= Qfloor q)%Z; [| lia].
        change 1%Z with (Qfloor 1). apply Qfloor_resp_le.
        apply Qlt_le_weak; exact Hgt.
      * apply rounds_to_proper with q; [exact Hmax | apply round_half_even_rounds].
Qed.

(** What the script prints for its own inputs. *)
Example test_values_rounded :
  map df_int test_values =
    [PyInt 2; PyInt 4; PyInt 1; PyInt 1; PyInt 11; PyInt 2; PyInt 3].
Proof. reflexivity. Qed.

Example df_fixed_value : df_fixed = PyInt 3.
Proof. reflexivity. Qed.

Example test_sizes_branches :
  map copula_sampling test_sizes =
    [SkipSampling (PyInt 0); SkipSampling (PyInt 1); Proceed (PyInt 50);
     Proceed (PyInt 1000); Proceed (PyInt 1000)].
Proof. reflexivity. Qed.

(** C1. For every raw estimate [nu], negative, zero, fractional or already
    an integer, [round(max(1, nu))] is an [int], is at least 1, and is
    [max(1, nu)] rounded to the nearest integer (ties to even); both
    assertions of the script hold for it. *)
Theorem df_int_spec (nu : pynum) :
  ∃ z : Z,
    df_int nu = PyInt z ∧ is_int (df_int nu) = true ∧ (1 <= z)%Z ∧
    rounds_to (Qmax 1 (value nu)) z ∧
    df_asserts nu = true.
Proof.
  destruct (df_int_rounds nu) as (z & Hz & Hint & Hge & Hround).
  exists z. repeat split; try assumption; try apply Hround.
  unfold df_asserts, py_ge. rewrite Hz. cbn [is_int value andb].
  apply Qle_bool_iff. rewrite <- Zle_Qle. exact Hge.
Qed.

(** C2. For every batch size, [nSim] is the integer [floor(min(1000, size))];
    the script takes the sampling branch exactly when [nSim >= 2] and the
    skipping branch otherwise. *)
Theorem nSim_spec (size : pynum) :
  ∃ z : Z,
    nSim size = PyInt z ∧ z = Qfloor (Qmin 1000 (value size)) ∧
    (proceeds (copula_sampling size) = true ↔ (2 <= z)%Z) ∧
    (copula_sampling size = if (2 <=? z)%Z then Proceed (PyInt z) else SkipSampling (PyInt z)).
Proof.
  assert (Hn : ∃ z, nSim size = PyInt z ∧ z = Qfloor (Qmin 1000 (value size))).
  { unfold nSim, py_min, py_lt. cbn [value].
    change (inject_Z 1000) with 1000.
    destruct (Qle_bool 1000 (value size)) eqn:Hle; cbn [negb].
    - apply Qle_bool_iff in Hle. exists 1000%Z. split; [reflexivity |].
      rewrite Q.min_l by exact Hle. reflexivity.
    - assert (Hlt : value size < 1000).
      { apply Qnot_le_lt. intros H. apply Qle_bool_iff in H. congruence. }
      assert (Hmin : Qmin 1000 (value size) == value size).
      { rewrite Q.min_r; [reflexivity | apply Qlt_le_weak; exact Hlt]. }
      destruct size as [n | q]; cbn [math_floor value] in *.
      + exists n. split; [reflexivity |]. rewrite Hmin. symmetry. apply Qfloor_Z.
      + exists (Qfloor q). split; [reflexivity |]. rewrite Hmin. reflexivity. }
  destruct Hn as (z & Hz & Hfl). exists z.
  split; [exact Hz |]. split; [exact Hfl |].
  unfold copula_sampling, py_ge. rewrite Hz. cbn [value].
  assert (Hb : Qle_bool (inject_Z 2) (inject_Z z) = (2 <=? z)%Z).
  { apply eq_true_iff_eq. rewrite Qle_bool_iff, <- Zle_Qle, Z.leb_le. reflexivity. }
  rewrite Hb. destruct (2 <=? z)%Z eqn:E; cbn [proceeds].
  - apply Z.leb_le in E. split; [tauto | reflexivity].
  - apply Z.leb_gt in E. split; [| reflexivity]. split; [discriminate | lia].
Qed.

End GuardProofs.

(* ===================================================================== *)
(** * Properties of the panel assemblers *)
(* ===================================================================== *)

Module PanelProofs.
Import Panel Examples PanelNotions.

Ltac run_monad :=
  unfold try_except, mbind, M_bind, mret, M_ret, print, setitem, get_combined,
    lift, or_raise, len, raise; cbn [combined stdout fst snd].

(** The head of [main_vars] is the key of [first_variable], and indexing the
    dictionary by it gives that variable. *)
Lemma main_vars_head (data : matfile matvalue) :
  match first_variable data with
  | Some (k, a) =>
      ∃ rest, List.filter (λ key, negb (startswith key "__")) data.*1 = k :: rest
              ∧ getitem data k = Some a
  | None => List.filter (λ key, negb (startswith key "__")) data.*1 = []
  end.
Proof.
  unfold first_variable, getitem.
  induction data as [| [k a] data IH]; cbn; [done |].
  destruct (startswith k "__") eqn:Hk; cbn.
  - destruct (List.find _ data) as [[k' a'] |] eqn:Hf.
    + destruct IH as (rest & -> & Hg). exists rest. split; [done |].
      destruct (String.eqb k k') eqn:E; [| done].
      apply String.eqb_eq in E. subst k'.
      apply find_some in Hf. cbn in Hf. rewrite Hk in Hf. by destruct Hf.
    + done.
  - eexists. split; [done |]. by rewrite String.eqb_refl.
Qed.

Lemma normalize_shape (a : ndarray) : shape a ≠ [] → shape (normalize a) ≠ [].
Proof. unfold normalize. destruct (is_row_or_column a); done. Qed.

Lemma normalize_numeric (a : ndarray) : is_numeric (normalize a) = is_numeric a.
Proof. unfold normalize. by destruct (is_row_or_column a). Qed.

Lemma numeric_variable (v : matvalue) :
  is_numeric (as_ndarray v) = true → ∃ a, v = Plain a.
Proof. destruct v; [by eexists | done | done]. Qed.

Lemma load_regime_labels_run fs product s :
  load_regime_labels fs product s =
    (inr (), State (<[product := regime_series fs product]> (combined s))
                   (stdout s ++ regime_events fs product)).
Proof.
  unfold load_regime_labels, regime_series, regime_events.
  destruct (os_path_exists fs (regime_filename product)); [| by run_monad].
  run_monad.
  destruct (scipy_loadmat fs (regime_filename product)) as [e | data]; cbn.
  - by rewrite <- app_assoc.
  - pose proof (main_vars_head data) as H.
    destruct (first_variable data) as [[k v] |].
    + destruct H as (rest & -> & ->). cbn.
      fold (normalize (as_ndarray v)). unfold np_isnan.
      rewrite normalize_numeric.
      destruct (is_numeric (as_ndarray v)) eqn:Hnum; cbn.
      * apply numeric_variable in Hnum as [a ->].
        assert (Hs : ∃ n l, shape (normalize (as_ndarray (Plain a))) = n :: l).
        { destruct (shape (normalize (as_ndarray (Plain a)))) eqn:E; [| eauto].
          by apply normalize_shape in E. }
        destruct Hs as (n & l & Hs). rewrite Hs. cbn.
        by rewrite <- app_assoc.
      * by rewrite insert_insert_eq, <- app_assoc.
    + rewrite H. cbn. by rewrite <- app_assoc.
Qed.

Lemma for_each_events (step : string → M unit) (entry : string → ndarray)
    (events : string → list event) l :
  (∀ p s, step p s = (inr (), State (<[p := entry p]> (combined s)) (stdout s ++ events p))) →
  ∀ s, for_each l step s =
    (inr (), State (foldl (λ c p, <[p := entry p]> c) (combined s) l)
                   (stdout s ++ concat (map events l))).
Proof.
  intros Hstep. induction l as [| p l IH]; intros s; cbn.
  - rewrite app_nil_r. by destruct s.
  - run_monad. rewrite Hstep, IH. cbn. by rewrite app_assoc.
Qed.

Lemma lookup_foldl_insert (entry : string → ndarray) l (c : gmap string ndarray) q :
  foldl (λ c p, <[p := entry p]> c) c l !! q =
    if decide (q ∈ l) then Some (entry q) else c !! q.
Proof.
  revert c. induction l as [| p l IH]; intros c; cbn.
  - rewrite decide_False; [done | apply not_elem_of_nil].
  - rewrite IH. destruct (decide (q ∈ l)) as [Hin | Hnin].
    + rewrite decide_True; [done | by right].
    + destruct (decide (q = p)) as [-> | Hne].
      * rewrite decide_True; [| by left]. by rewrite lookup_insert_eq.
      * rewrite decide_False; [by rewrite lookup_insert_ne |].
        by intros [? | ?]%elem_of_cons.
Qed.

Lemma dom_foldl_insert (entry : string → ndarray) l (c : gmap string ndarray) :
  dom (foldl (λ c p, <[p := entry p]> c) c l) = list_to_set l ∪ dom c.
Proof.
  revert c. induction l as [| p l IH]; intros c; cbn.
  - by rewrite (left_id_L ∅ (∪)).
  - rewrite IH, dom_insert_L. by rewrite (assoc_L (∪)), (comm_L (∪) _ {[p]}).
Qed.

Lemma selected_field_in product (field_names : list string) :
  field_names ≠ [] →
  ∃ f, selected_field product field_names = Some f ∧ f ∈ field_names.
Proof.
  intros Hne. unfold selected_field.
  destruct (truthy (data_field product field_names)) eqn:Ht.
  - unfold data_field in *.
    destruct (List.find _ field_names) as [f |] eqn:Hf; [| done].
    exists f. split; [done |]. apply find_some in Hf. apply list_elem_of_In. tauto.
  - destruct (non_time_fields field_names) as [| f l] eqn:Hn.
    + destruct field_names as [| f l]; [done |]. exists f. split; [done | by left].
    + exists f. split; [done |].
      assert (Hin : In f (non_time_fields field_names)) by (rewrite Hn; by left).
      unfold non_time_fields in Hin. apply filter_In in Hin.
      apply list_elem_of_In. tauto.
Qed.

Lemma field_lookup_in name (fields : list (string * list pyobject)) :
  name ∈ fields.*1 → is_Some (field_lookup name fields).
Proof.
  unfold field_lookup. induction fields as [| [k a] fields IH]; cbn.
  - by intros ?%elem_of_nil.
  - intros [-> | Hin]%elem_of_cons.
    + rewrite String.eqb_refl. by eexists.
    + destruct (String.eqb k name); [by eexists | auto].
Qed.

Lemma returns_column_total product v : is_Some (returns_column product v).
Proof.
  destruct v as [a | dims items | dims f0 fields]; [by eexists | by eexists |].
  unfold returns_column, dtype_names.
  destruct (selected_field_in product (f0 :: fields).*1) as (f & -> & Hin); [done |].
  destruct (field_lookup_in f (f0 :: fields) Hin) as [column Hc].
  exists (field_array dims column). cbn [mbind option_bind]. by rewrite Hc.
Qed.

Lemma in_main_vars {V} (data : matfile V) (k : string) :
  startswith k "__" = false →
  k ∈ List.filter (λ key, negb (startswith key "__")) data.*1 ↔ is_Some (getitem data k).
Proof.
  intros Hk. rewrite list_elem_of_In, filter_In, Hk. cbn.
  unfold getitem. induction data as [| [k' a] data IH]; cbn.
  - split; [tauto | by intros [? ?]].
  - destruct (String.eqb k' k) eqn:E.
    + apply String.eqb_eq in E. subst. split; [by eexists | tauto].
    + apply String.eqb_neq in E. rewrite <- IH. split; [| tauto].
      intros [[? | ?] ?]; [done | tauto].
Qed.

Lemma load_returns_table_run fs product s :
  load_returns_table fs product s =
    (inr (), State (<[product := returns_series fs product]> (combined s))
                   (stdout s ++ returns_events fs product)).
Proof.
  unfold load_returns_table, returns_series, returns_events.
  destruct (os_path_exists fs (returns_filename product)); [| by run_monad].
  run_monad.
  destruct (scipy_loadmat fs (returns_filename product)) as [e | data];
    cbn -[field_lookup].
  { by rewrite <- app_assoc. }
  pose proof (in_main_vars data "returnsTable" eq_refl) as Hin.
  destruct (getitem data "returnsTable") as [v |] eqn:Hg; cbn -[field_lookup].
  - rewrite bool_decide_eq_true_2 by (apply Hin; by eexists).
    destruct (returns_column_total product v) as [a Ha].
    rewrite Ha.
    destruct v as [a' | dims items | dims f0 fields]; cbn -[field_lookup] in Ha |- *.
    + injection Ha as <-. rewrite lookup_insert_eq. cbn.
      by rewrite <- !app_assoc.
    + injection Ha as <-. rewrite lookup_insert_eq. cbn.
      by rewrite <- !app_assoc.
    + destruct (selected_field product (f0.1 :: fields.*1)) as [name |]; [| done].
      cbn -[field_lookup] in Ha |- *.
      destruct (field_lookup name (f0 :: fields)) as [column |]; [| done].
      cbn in Ha |- *. injection Ha as <-. rewrite lookup_insert_eq. cbn.
      by rewrite <- !app_assoc.
  - rewrite bool_decide_eq_false_2 by (intros H; apply Hin in H; by destruct H).
    cbn. by rewrite <- !app_assoc.
Qed.

Lemma console_ret {A} (x : A) : console_only (mret x).
Proof. intros s. exists []. cbn. rewrite app_nil_r. by destruct s. Qed.

Lemma console_raise {A} e : console_only (raise (A := A) e).
Proof. intros s. exists []. cbn. rewrite app_nil_r. by destruct s. Qed.

Lemma console_print e : console_only (print e).
Proof. intros s. by exists [e]. Qed.

Lemma console_lift {A} (r : exn + A) : console_only (lift r).
Proof. destruct r; [apply console_raise | apply console_ret]. Qed.

Lemma console_or_raise {A} e (o : option A) : console_only (or_raise e o).
Proof. destruct o; [apply console_ret | apply console_raise]. Qed.

Lemma console_get : console_only get_combined.
Proof. intros s. exists []. cbn. rewrite app_nil_r. by destruct s. Qed.

Lemma console_bind {A B} (m : M A) (f : A → M B) :
  console_only m → (∀ x, console_only (f x)) → console_only (m ≫= f).
Proof.
  intros Hm Hf s. destruct (Hm s) as (evs & Hs).
  unfold mbind, M_bind. destruct (m s) as [[e | x] s'] eqn:E; cbn in Hs; subst s'.
  - by exists evs.
  - destruct (Hf x (State (combined s) (stdout s ++ evs))) as (evs' & ->).
    exists (evs ++ evs'). cbn. by rewrite app_assoc.
Qed.

Lemma console_try {A} (body : M A) (handler : exn → M A) :
  console_only body → (∀ e, console_only (handler e)) →
  console_only (try_except body handler).
Proof.
  intros Hm Hf s. destruct (Hm s) as (evs & Hs).
  unfold try_except. destruct (body s) as [[e | x] s'] eqn:E; cbn in Hs; subst s'.
  - destruct (Hf e (State (combined s) (stdout s ++ evs))) as (evs' & ->).
    exists (evs ++ evs'). cbn. by rewrite app_assoc.
  - by exists evs.
Qed.

Lemma console_for_each {A} (l : list A) (body : A → M unit) :
  (∀ x, console_only (body x)) → console_only (for_each l body).
Proof.
  intros Hb. induction l as [| x l IH]; cbn.
  - apply console_ret.
  - apply console_bind; [apply Hb | intros _; apply IH].
Qed.

Lemma try_no_raise {A} (body : M A) (handler : exn → M A) :
  (∀ e, no_raise (handler e)) → no_raise (try_except body handler).
Proof.
  intros Hh s. unfold try_except.
  destruct (body s) as [[e | x] s']; [apply Hh | by exists x].
Qed.

Lemma save_handler_no_raise e : no_raise (print (SaveError e) ;; mret false).
Proof. intros s. by exists false. Qed.

Lemma save_handler_console e : console_only (print (SaveError e) ;; mret false).
Proof. apply console_bind; [apply console_print | intros; apply console_ret]. Qed.

Create HintDb console.

#[local] Hint Resolve console_ret console_raise console_print console_lift
  console_or_raise console_get console_for_each save_handler_console : console.

Ltac console := repeat first
  [ apply console_for_each; intros ? | apply console_try; [| intros ?]
  | solve [auto with console] | apply console_bind; [| intros ?] ].

Lemma console_len a : console_only (len a).
Proof. unfold len. console. Qed.

Lemma report_returns_console product : console_only (report_returns product).
Proof.
  unfold report_returns.
  apply console_bind; [apply console_get | intros c].
  destruct (c !! product) as [series |]; [| apply console_print].
  apply console_bind; [apply console_len | intros n].
  destruct (0 <? n)%nat; [| apply console_print].
  apply console_bind; [apply console_lift | intros _; apply console_print].
Qed.

#[local] Hint Resolve console_len report_returns_console : console.

(** The scripts as a whole. *)
Lemma assemble_regime_labels_run fs s :
  assemble_regime_labels fs s =
    (inr (), State (foldl (λ c p, <[p := regime_series fs p]> c) (combined s) products)
                   (stdout s ++ concat (map (regime_events fs) products))).
Proof. apply for_each_events. apply load_regime_labels_run. Qed.

Lemma assemble_returns_tables_run fs s :
  assemble_returns_tables fs s =
    (inr (), State (foldl (λ c p, <[p := returns_series fs p]> c) (combined s) products)
                   (stdout s ++ concat (map (returns_events fs) products))).
Proof. apply for_each_events. apply load_returns_table_run. Qed.

Lemma after_assembly {A} (m : M unit) (banner saving : string) (verify : M A)
    (c : gmap string ndarray) (evs : list event) (handler : exn → M A) :
  m (State ∅ [Info banner]) = (inr (), State c (Info banner :: evs)) →
  console_only verify → (∀ e, console_only (handler e)) → (∀ e, no_raise (handler e)) →
  ∃ b evs', run (print (Info banner) ;; m ;; print (Info saving) ;; try_except verify handler)
            = (inr b, State c (Info banner :: evs ++ Info saving :: evs')).
Proof.
  intros Hm Hv Hc Hn. unfold run, mbind, M_bind, print. cbn. rewrite Hm. cbn.
  set (s := State c _).
  destruct (try_no_raise verify handler Hn s) as (b & Hb).
  destruct (console_try verify handler Hv Hc s) as (evs' & Hs).
  unfold try_except in *.
  destruct (match verify s with (inl e, s') => handler e s' | (inr x, s') => (inr x, s') end)
    as [r s'] eqn:E.
  cbn in Hb, Hs. subst r s'. exists b, evs'. subst s. cbn.
  by rewrite <- app_assoc.
Qed.

Lemma combine_regime_labels_run fs :
  ∃ b evs,
    run (combine_regime_labels fs) =
      (inr b, State (foldl (λ c p, <[p := regime_series fs p]> c) ∅ products)
                    (Info "=== Combining Regime Labels for Sprint 2 ===" ::
                     concat (map (regime_events fs) products) ++
                     Info "Saving combined regimeLabels.mat..." :: evs)).
Proof.
  unfold combine_regime_labels. apply after_assembly.
  - by rewrite assemble_regime_labels_run.
  - console. destruct (bool_decide _); console.
  - intros e. console.
  - apply save_handler_no_raise.
Qed.

Lemma combine_returns_tables_run fs :
  ∃ b evs,
    run (combine_returns_tables fs) =
      (inr b, State (foldl (λ c p, <[p := returns_series fs p]> c) ∅ products) evs).
Proof.
  unfold combine_returns_tables.
  edestruct (after_assembly (A := bool) (assemble_returns_tables fs)) as (b & evs' & ->).
  - by rewrite assemble_returns_tables_run.
  - console.
  - intros e. console.
  - apply save_handler_no_raise.
  - eauto.
Qed.

Lemma panel_lookup (entry : string → ndarray) (q : string) :
  foldl (λ c p, <[p := entry p]> c) (∅ : gmap string ndarray) products !! q =
    if decide (q ∈ products) then Some (entry q) else None.
Proof. rewrite lookup_foldl_insert. by destruct (decide _). Qed.

Lemma panel_dom (entry : string → ndarray) :
  dom (foldl (λ c p, <[p := entry p]> c) (∅ : gmap string ndarray) products)
  = list_to_set products.
Proof. rewrite dom_foldl_insert, dom_empty_L. by rewrite (right_id_L ∅ (∪)). Qed.

Lemma data_normalize (a : ndarray) : data (normalize a) = data a.
Proof. unfold normalize. by destruct (is_row_or_column a). Qed.

Lemma find_key_elem_of {V} (l : list (string * V)) (key : string) (v : V) :
  snd <$> List.find (λ kv, String.eqb (fst kv) key) l = Some v → (key, v) ∈ l.
Proof.
  destruct (List.find _ l) as [[k v'] |] eqn:Hf; [| done].
  cbn. intros [= ->]. apply find_some in Hf as [Hin Hk]. cbn in Hk.
  apply String.eqb_eq in Hk. subst k. by apply list_elem_of_In.
Qed.

Lemma first_variable_elem_of {V} (data : matfile V) kv :
  first_variable data = Some kv → kv ∈ data.
Proof. intros H. apply find_some in H. apply list_elem_of_In. tauto. Qed.

Lemma returns_column_source product (rt : matvalue) (a : ndarray) :
  returns_column product rt = Some a →
  (∃ m, rt = Plain m ∧ a = to_ndarray m) ∨
  (∃ dims items, rt = Cell dims items ∧ a = NdArray Object dims (Obj <$> items)) ∨
  (∃ dims f0 fields name column,
     rt = Structured dims f0 fields ∧ (name, column) ∈ f0 :: fields ∧
     a = field_array dims column).
Proof.
  destruct rt as [m | dims items | dims f0 fields]; cbn -[field_lookup].
  - intros [= <-]. left. by exists m.
  - intros [= <-]. right. left. by exists dims, items.
  - destruct (selected_field _ _) as [name |]; [| done]. cbn -[field_lookup].
    destruct (field_lookup name (f0 :: fields)) as [column |] eqn:Hl; [| done].
    cbn. intros [= <-].
    right. right. exists dims, f0, fields, name, column.
    split; [done |]. split; [| done]. by apply find_key_elem_of.
Qed.

(** What a regime-label entry can be. *)
Lemma regime_series_cases fs p :
  regime_series fs p = empty_array ∨
  ∃ vars k a, os_path_exists fs (regime_filename p) = true ∧
    scipy_loadmat fs (regime_filename p) = inr vars ∧ (k, Plain a) ∈ vars ∧
    data (regime_series fs p) = elems a.
Proof.
  unfold regime_series.
  destruct (os_path_exists fs (regime_filename p)); [| by left].
  destruct (scipy_loadmat fs (regime_filename p)) as [e | vars]; [by left |].
  destruct (first_variable vars) as [[k v] |] eqn:Hf; [| by left].
  destruct (is_numeric (as_ndarray v)) eqn:Hnum; [| by left].
  apply numeric_variable in Hnum as [a ->].
  right. exists vars, k, a. repeat split; [| by rewrite data_normalize].
  by apply first_variable_elem_of in Hf.
Qed.

Lemma returns_series_cases fs p :
  returns_series fs p = empty_array ∨
  ∃ vars rt, os_path_exists fs (returns_filename p) = true ∧
    scipy_loadmat fs (returns_filename p) = inr vars ∧
    ("returnsTable", rt) ∈ vars ∧
    ((∃ a, rt = Plain a ∧ data (returns_series fs p) = elems a) ∨
     (∃ dims items, rt = Cell dims items ∧ data (returns_series fs p) = Obj <$> items) ∨
     (∃ dims f0 fields name column,
        rt = Structured dims f0 fields ∧ (name, column) ∈ f0 :: fields ∧
        data (returns_series fs p) = Obj <$> column)).
Proof.
  unfold returns_series.
  destruct (os_path_exists fs (returns_filename p)); [| by left].
  destruct (scipy_loadmat fs (returns_filename p)) as [e | vars]; [by left |].
  destruct (getitem vars "returnsTable") as [rt |] eqn:Hg; [| by left]. cbn.
  destruct (returns_column p rt) as [a |] eqn:Hc; [| by left].
  right. exists vars, rt. repeat split; [by apply find_key_elem_of |].
  apply returns_column_source in Hc
    as [(m & -> & ->) | [(dims & items & -> & ->)
        | (dims & f0 & fields & name & column & -> & Hin & ->)]].
  - left. by exists m.
  - right. left. by exists dims, items.
  - right. right. by exists dims, f0, fields, name, column.
Qed.

(** C3. Whatever the raw sources are (present, absent, unreadable, without a
    data variable, of any kind), both assemblers end with a dictionary whose
    keys are exactly the products of the universe, each holding either the
    empty array or the elements of a series loaded from that product's
    file: a numeric variable for the regime labels; for the returns the
    [returnsTable] variable, numeric or a cell array, or one field of it
    when it is a struct. *)
Theorem panel_covers_universe :
  (∀ fs : filesystem matvalue, ∃ b s,
     run (combine_regime_labels fs) = (inr b, s) ∧
     dom (combined s) = list_to_set products ∧
     ∀ p, p ∈ products → ∃ v, combined s !! p = Some v ∧
       (v = empty_array ∨
        ∃ vars k a, os_path_exists fs (regime_filename p) = true ∧
          scipy_loadmat fs (regime_filename p) = inr vars ∧ (k, Plain a) ∈ vars ∧
          data v = elems a)) ∧
  (∀ fs : filesystem matvalue, ∃ b s,
     run (combine_returns_tables fs) = (inr b, s) ∧
     dom (combined s) = list_to_set products ∧
     ∀ p, p ∈ products → ∃ v, combined s !! p = Some v ∧
       (v = empty_array ∨
        ∃ vars rt, os_path_exists fs (returns_filename p) = true ∧
          scipy_loadmat fs (returns_filename p) = inr vars ∧
          ("returnsTable", rt) ∈ vars ∧
          ((∃ a, rt = Plain a ∧ data v = elems a) ∨
           (∃ dims items, rt = Cell dims items ∧ data v = Obj <$> items) ∨
           (∃ dims f0 fields name column,
              rt = Structured dims f0 fields ∧ (name, column) ∈ f0 :: fields ∧
              data v = Obj <$> column)))).
Proof.
  split; intros fs.
  - destruct (combine_regime_labels_run fs) as (b & evs & ->).
    eexists _, _. split; [done |]. cbn [combined]. split; [apply panel_dom |].
    intros p Hp. exists (regime_series fs p). rewrite panel_lookup, decide_True by done.
    split; [done | apply regime_series_cases].
  - destruct (combine_returns_tables_run fs) as (b & evs & ->).
    eexists _, _. split; [done |]. cbn [combined]. split; [apply panel_dom |].
    intros p Hp. exists (returns_series fs p). rewrite panel_lookup, decide_True by done.
    split; [done | apply returns_series_cases].
Qed.

(** C6. A product whose source file is absent, or whose load raises, gets the
    empty array; the script does not raise and returns its result; and the
    entries of all other products are what they are under any other state
    of that product's file. *)
Theorem missing_source_degrades_per_product :
  (∀ (fs : filesystem matvalue) p, p ∈ products →
     os_path_exists fs (regime_filename p) = false ∨
       (∃ e, scipy_loadmat fs (regime_filename p) = inl e) →
     ∃ b s, run (combine_regime_labels fs) = (inr b, s) ∧
       combined s !! p = Some empty_array ∧
       ∀ fs' : filesystem matvalue,
         (∀ q, q ≠ p →
            os_path_exists fs' (regime_filename q) = os_path_exists fs (regime_filename q) ∧
            scipy_loadmat fs' (regime_filename q) = scipy_loadmat fs (regime_filename q)) →
         ∃ b' s', run (combine_regime_labels fs') = (inr b', s') ∧
           ∀ q, q ≠ p → combined s' !! q = combined s !! q) ∧
  (∀ (fs : filesystem matvalue) p, p ∈ products →
     os_path_exists fs (returns_filename p) = false ∨
       (∃ e, scipy_loadmat fs (returns_filename p) = inl e) →
     ∃ b s, run (combine_returns_tables fs) = (inr b, s) ∧
       combined s !! p = Some empty_array ∧
       ∀ fs' : filesystem matvalue,
         (∀ q, q ≠ p →
            os_path_exists fs' (returns_filename q) = os_path_exists fs (returns_filename q) ∧
            scipy_loadmat fs' (returns_filename q) = scipy_loadmat fs (returns_filename q)) →
         ∃ b' s', run (combine_returns_tables fs') = (inr b', s') ∧
           ∀ q, q ≠ p → combined s' !! q = combined s !! q).
Proof.
  split; intros fs p Hp Hmiss.
  - destruct (combine_regime_labels_run fs) as (b & evs & ->).
    eexists _, _. split; [done |]. cbn [combined]. split.
    + rewrite panel_lookup, decide_True by done. f_equal.
      unfold regime_series. destruct Hmiss as [-> | [e ->]]; [done |].
      by destruct (os_path_exists _ _).
    + intros fs' Hagree.
      destruct (combine_regime_labels_run fs') as (b' & evs' & ->).
      eexists _, _. split; [done |]. cbn [combined]. intros q Hq.
      rewrite !panel_lookup. destruct (decide (q ∈ products)); [| done].
      f_equal. unfold regime_series. by destruct (Hagree q Hq) as [-> ->].
  - destruct (combine_returns_tables_run fs) as (b & evs & ->).
    eexists _, _. split; [done |]. cbn [combined]. split.
    + rewrite panel_lookup, decide_True by done. f_equal.
      unfold returns_series. destruct Hmiss as [-> | [e ->]]; [done |].
      by destruct (os_path_exists _ _).
    + intros fs' Hagree.
      destruct (combine_returns_tables_run fs') as (b' & evs' & ->).
      eexists _, _. split; [done |]. cbn [combined]. intros q Hq.
      rewrite !panel_lookup. destruct (decide (q ∈ products)); [| done].
      f_equal. unfold returns_series. by destruct (Hagree q Hq) as [-> ->].
Qed.

Lemma first_variable_app {V} (pre post : matfile V) (k : string) (a : V) :
  Forall (λ kv, startswith kv.1 "__" = true) pre →
  startswith k "__" = false →
  first_variable (pre ++ (k, a) :: post) = Some (k, a).
Proof.
  intros Hpre Hk. unfold first_variable.
  induction Hpre as [| [k' a'] pre Hk' _ IH]; cbn in *.
  - by rewrite Hk.
  - by rewrite Hk'.
Qed.

Lemma first_variable_none {V} (data : matfile V) :
  Forall (λ kv, startswith kv.1 "__" = true) data → first_variable data = None.
Proof.
  unfold first_variable.
  induction 1 as [| [k a] data Hk _ IH]; cbn in *; [done |]. by rewrite Hk.
Qed.

Lemma elem_of_concat_map {A B} (f : A → list B) (l : list A) (x : A) (y : B) :
  x ∈ l → y ∈ f x → y ∈ concat (map f l).
Proof.
  intros Hx Hy. apply list_elem_of_In, in_concat. exists (f x).
  split; [apply in_map |]; by apply list_elem_of_In.
Qed.

(** C10, as the code has it. For a regime-label file that loads, the
    assembler takes the first variable, in key order, whose name does not
    start with [__], whatever the other variables are. When that variable
    is numeric, the entry of the product is its array (flattened when it is
    a row or a column, its elements unchanged). When it is not (a struct, a
    cell array, a char array), [np.isnan] raises [TypeError] after the
    store, and the handler prints the error and replaces the entry by the
    empty array. When every name starts with [__] the entry is the empty
    array. *)
Theorem regime_first_variable_stored (fs : filesystem matvalue) (p : string)
    (vars : matfile matvalue) :
  p ∈ products →
  os_path_exists fs (regime_filename p) = true →
  scipy_loadmat fs (regime_filename p) = inr vars →
  ∃ b s, run (combine_regime_labels fs) = (inr b, s) ∧
    (∀ pre k v post,
       vars = pre ++ (k, v) :: post →
       Forall (λ kv, startswith kv.1 "__" = true) pre →
       startswith k "__" = false →
       (∀ a, v = Plain a →
          ∃ e, combined s !! p = Some e ∧ e = normalize (to_ndarray a) ∧
               data e = elems a) ∧
       (is_numeric (as_ndarray v) = false →
          combined s !! p = Some empty_array ∧ LoadError TypeError ∈ stdout s)) ∧
    (Forall (λ kv, startswith kv.1 "__" = true) vars →
       combined s !! p = Some empty_array).
Proof.
  intros Hp Hex Hload.
  destruct (combine_regime_labels_run fs) as (b & evs & ->).
  eexists _, _. split; [done |]. cbn [combined stdout].
  rewrite panel_lookup, decide_True by done.
  unfold regime_series. rewrite Hex, Hload. split.
  - intros pre k v post -> Hpre Hk.
    rewrite first_variable_app by done. split.
    + intros a ->. cbn [as_ndarray to_ndarray is_numeric dtype_of].
      eexists. split; [done |]. split; [done |]. by rewrite data_normalize.
    + intros Hnum. rewrite Hnum. split; [done |].
      right. apply elem_of_app. left.
      apply (elem_of_concat_map (regime_events fs) products p); [done |].
      unfold regime_events. rewrite Hex, Hload, first_variable_app, Hnum by done.
      right. by left.
  - intros Hall. by rewrite first_variable_none.
Qed.

(** C10 as stated fails for a file whose first variable is not numeric: the
    file of [nodalPrices] holds a 1x1 struct followed by a numeric variable;
    the struct is the first variable and holds an element, yet the entry of
    the product is the empty array, and the console has the error. *)
Lemma regime_struct_variable_dropped :
  ∃ s first,
    run (combine_regime_labels struct_labels_fs) = (inr true, s) ∧
    scipy_loadmat struct_labels_fs (regime_filename "nodalPrices") = inr struct_labels_vars ∧
    first_variable struct_labels_vars = Some ("regimeLabels", first) ∧
    length (data (as_ndarray first)) = 1%nat ∧
    combined s !! "nodalPrices" = Some empty_array ∧
    data empty_array = [] ∧
    LoadError TypeError ∈ stdout s.
Proof.
  eexists _, _. split; [vm_compute; reflexivity |].
  split; [reflexivity |]. split; [reflexivity |]. split; [reflexivity |].
  split; [vm_compute; reflexivity |]. split; [reflexivity |].
  cbn [stdout]. do 2 right. left.
Qed.

Lemma flatten_row (a : ndarray) (n : nat) :
  shape a = [1%nat; n] →
  shape (flatten a) = [n] ∧ ∀ i, item1 (flatten a) i = item2 a 0 i.
Proof.
  destruct a as [dt sh el]. cbn. intros ->.
  unfold flatten, size, item1, item2. cbn. split; [f_equal; lia |].
  intros i. replace (n * 1 + 0)%nat with n by lia.
  destruct (decide (i < n)%nat); [rewrite decide_True by lia | rewrite decide_False by lia]; done.
Qed.

Lemma flatten_column (a : ndarray) (n : nat) :
  shape a = [n; 1%nat] →
  shape (flatten a) = [n] ∧ ∀ i, item1 (flatten a) i = item2 a i 0.
Proof.
  destruct a as [dt sh el]. cbn. intros ->.
  unfold flatten, size, item1, item2. cbn. split; [f_equal; lia |].
  intros i. replace (n * 1)%nat with n by lia. replace (i * 1 + 0)%nat with i by lia.
  destruct (decide (i < n)%nat); [rewrite decide_True by lia | rewrite decide_False by lia]; done.
Qed.

Lemma normalize_vector (a : ndarray) (n : nat) :
  is_vector a n → normalize a = flatten a.
Proof.
  unfold normalize, is_row_or_column, ndim.
  intros [-> | ->]; cbn; [done |]. by rewrite orb_true_r.
Qed.

Lemma flatten_vector (a : ndarray) (n : nat) :
  is_vector a n →
  shape (flatten a) = [n] ∧
  data (flatten a) = data a ∧
  dtype_of (flatten a) = dtype_of a ∧
  (wf a → length (data (flatten a)) = n) ∧
  (shape a = [1%nat; n] → ∀ i, item1 (flatten a) i = item2 a 0 i) ∧
  (shape a = [n; 1%nat] → ∀ i, item1 (flatten a) i = item2 a i 0).
Proof.
  intros Hshape.
  assert (Hn : shape (flatten a) = [n]).
  { destruct Hshape as [H | H].
    - by apply flatten_row.
    - by apply flatten_column. }
  split; [done |]. split; [done |]. split; [done |]. split.
  - unfold wf. intros Hwf. cbn [flatten data] in *. rewrite Hwf. by injection Hn.
  - split; intros H1.
    + by apply (flatten_row a n).
    + by apply (flatten_column a n).
Qed.

Lemma row_shape (m : matarray) (n : nat) :
  is_vector (to_ndarray m) n → rows m = 1%nat → shape (to_ndarray m) = [1%nat; n].
Proof. intros [H | H] Hr; cbn in *; [done |]. injection H as H1 H2 H3. congruence. Qed.

Lemma column_shape (m : matarray) (n : nat) :
  is_vector (to_ndarray m) n → cols m = 1%nat → shape (to_ndarray m) = [n; 1%nat].
Proof. intros [H | H] Hc; cbn in *; [| done]. injection H as H1 H2 H3. congruence. Qed.

(** C5. A two-dimensional input of shape (1,n) or (n,1) is stored by both
    assemblers as a one-dimensional array of length [n] with the same
    elements in the same order: element [i] of the stored series is element
    [(0,i)] of a row and element [(i,0)] of a column. For the regime labels
    the input is the numeric first variable; for the returns it is the
    array taken from [returnsTable], of any dtype. *)
Theorem vectors_are_flattened_in_order :
  (∀ (fs : filesystem matvalue) p vars k a n,
     p ∈ products →
     os_path_exists fs (regime_filename p) = true →
     scipy_loadmat fs (regime_filename p) = inr vars →
     first_variable vars = Some (k, Plain a) →
     is_vector (to_ndarray a) n →
     ∃ b s v, run (combine_regime_labels fs) = (inr b, s) ∧
       combined s !! p = Some v ∧ shape v = [n] ∧ data v = elems a ∧
       (wf (to_ndarray a) → length (data v) = n) ∧
       (rows a = 1%nat → ∀ i, item1 v i = item2 (to_ndarray a) 0 i) ∧
       (cols a = 1%nat → ∀ i, item1 v i = item2 (to_ndarray a) i 0)) ∧
  (∀ (fs : filesystem matvalue) p vars rt a n,
     p ∈ products →
     os_path_exists fs (returns_filename p) = true →
     scipy_loadmat fs (returns_filename p) = inr vars →
     getitem vars "returnsTable" = Some rt →
     returns_column p rt = Some a →
     is_vector a n →
     ∃ b s v, run (combine_returns_tables fs) = (inr b, s) ∧
       combined s !! p = Some v ∧ shape v = [n] ∧ data v = data a ∧
       dtype_of v = dtype_of a ∧
       (wf a → length (data v) = n) ∧
       (shape a = [1%nat; n] → ∀ i, item1 v i = item2 a 0 i) ∧
       (shape a = [n; 1%nat] → ∀ i, item1 v i = item2 a i 0)).
Proof.
  split.
  - intros fs p vars k a n Hp Hex Hload Hfirst Hvec.
    destruct (combine_regime_labels_run fs) as (b & evs & ->).
    eexists _, _, (flatten (to_ndarray a)). split; [done |]. cbn [combined].
    rewrite panel_lookup, decide_True by done.
    unfold regime_series. rewrite Hex, Hload, Hfirst.
    cbn [as_ndarray to_ndarray is_numeric dtype_of].
    fold (to_ndarray a). rewrite (normalize_vector _ n) by done.
    split; [done |].
    destruct (flatten_vector (to_ndarray a) n Hvec) as (H1 & H2 & _ & H3 & H4 & H5).
    split; [done |]. split; [done |]. split; [done |]. split.
    + intros Hr. apply H4. by apply row_shape.
    + intros Hc. apply H5. by apply column_shape.
  - intros fs p vars rt a n Hp Hex Hload Hrt Hcol Hvec.
    destruct (combine_returns_tables_run fs) as (b & evs & ->).
    eexists _, _, (flatten a). split; [done |]. cbn [combined].
    rewrite panel_lookup, decide_True by done.
    unfold returns_series. rewrite Hex, Hload, Hrt. cbn. rewrite Hcol.
    split; [done |]. by apply flatten_vector.
Qed.

Lemma find_first {A} (P : A → bool) (pre post : list A) (x : A) :
  Forall (λ y, P y = false) pre → P x = true →
  List.find P (pre ++ x :: post) = Some x.
Proof.
  intros Hpre Hx. induction Hpre as [| y pre Hy _ IH]; cbn.
  - by rewrite Hx.
  - by rewrite Hy.
Qed.

Lemma find_none {A} (P : A → bool) (l : list A) :
  Forall (λ y, P y = false) l → List.find P l = None.
Proof. induction 1 as [| y l Hy _ IH]; cbn; [done |]. by rewrite Hy. Qed.

Lemma filter_first {A} (P : A → bool) (pre post : list A) (x : A) :
  Forall (λ y, P y = false) pre → P x = true →
  List.filter P (pre ++ x :: post) = x :: List.filter P post.
Proof.
  intros Hpre Hx. induction Hpre as [| y pre Hy _ IH]; cbn.
  - by rewrite Hx.
  - by rewrite Hy.
Qed.

Lemma filter_none {A} (P : A → bool) (l : list A) :
  Forall (λ y, P y = false) l → List.filter P l = [].
Proof. induction 1 as [| y l Hy _ IH]; cbn; [done |]. by rewrite Hy. Qed.

Lemma non_time_test (f : string) :
  negb (contains "time" (lower f)) && negb (contains "date" (lower f))
  = negb (matches_time_pattern f).
Proof. unfold matches_time_pattern. by rewrite negb_orb. Qed.

(** The two selections the specification gives as examples. *)
Example select_product_field :
  selected_field "nodalPrices" ["Timestamp"; "nodalPrices"] = Some "nodalPrices".
Proof. reflexivity. Qed.

Example select_first_non_timestamp :
  selected_field "regup" ["Time"; "Value"] = Some "Value".
Proof. reflexivity. Qed.

(** C4, as the code has it. The selected field is the first field, in
    declared order, whose name contains the product name or is neither
    [Timestamp] nor [Time]; when there is none, the first field whose
    lower-cased name contains neither [time] nor [date]; and otherwise the
    first field. *)
Theorem selected_field_precedence (product : string) (field_names : list string) :
  (∀ pre f post,
     field_names = pre ++ f :: post →
     Forall (λ g, primary_match product g = false) pre →
     primary_match product f = true → f ≠ "" →
     selected_field product field_names = Some f) ∧
  (Forall (λ g, primary_match product g = false) field_names →
   (∀ pre f post,
      field_names = pre ++ f :: post →
      Forall (λ g, matches_time_pattern g = true) pre →
      matches_time_pattern f = false →
      selected_field product field_names = Some f) ∧
   (Forall (λ g, matches_time_pattern g = true) field_names →
      selected_field product field_names = head field_names)).
Proof.
  unfold selected_field, data_field. split.
  - intros pre f post -> Hpre Hf Hne.
    rewrite find_first by done. cbn.
    by apply String.eqb_neq in Hne as ->.
  - intros Hnone. rewrite find_none by done. cbn. split.
    + intros pre f post -> Hpre Hf. unfold non_time_fields.
      rewrite filter_first; [done | | by rewrite non_time_test, Hf].
      eapply Forall_impl; [exact Hpre |]. cbn. intros g Hg.
      by rewrite non_time_test, Hg.
    + intros Hall. unfold non_time_fields. rewrite filter_none; [done |].
      eapply Forall_impl; [exact Hall |]. cbn. intros g Hg.
      by rewrite non_time_test, Hg.
Qed.

(** C4 as stated fails: with fields [Timestamp, hubPrices, nodalPrices] and
    product [nodalPrices] the code selects [hubPrices], the first field that
    is not a timestamp, although a later field contains the product name. *)
Lemma product_field_not_preferred :
  selected_field "nodalPrices" ["Timestamp"; "hubPrices"; "nodalPrices"] = Some "hubPrices" ∧
  spec_selected_field "nodalPrices" ["Timestamp"; "hubPrices"; "nodalPrices"] = Some "nodalPrices" ∧
  contains "nodalPrices" "nodalPrices" = true ∧
  contains "nodalPrices" "hubPrices" = false.
Proof. vm_compute. done. Qed.

Lemma field_lookup_elem_of name (fields : list (string * list pyobject)) column :
  field_lookup name fields = Some column → (name, column) ∈ fields.
Proof. apply find_key_elem_of. Qed.

(** C9. On a structured record with at least one field the selection always
    yields a field name of the record, and indexing the record by it yields
    that field's column: neither [field_names[0]] nor the indexing fails.
    In the loop body a structured [returnsTable] therefore ends in the
    success print with the flattened field stored, never in the handler. *)
Theorem selection_never_fails (product : string)
    (fields : list (string * list pyobject)) :
  fields ≠ [] →
  (∃ name column,
     selected_field product fields.*1 = Some name ∧ name ∈ fields.*1 ∧
     field_lookup name fields = Some column ∧ (name, column) ∈ fields) ∧
  (∀ (fs : filesystem matvalue) vars dims f0 rest s,
     fields = f0 :: rest →
     os_path_exists fs (returns_filename product) = true →
     scipy_loadmat fs (returns_filename product) = inr vars →
     getitem vars "returnsTable" = Some (Structured dims f0 rest) →
     ∃ name column,
       selected_field product fields.*1 = Some name ∧
       field_lookup name fields = Some column ∧
       load_returns_table fs product s =
         (inr (), State (<[product := flatten (field_array dims column)]> (combined s))
                        (stdout s ++ [Loading (returns_filename product);
                                      LoadedReturns (size (field_array dims column))]))).
Proof.
  intros Hne.
  destruct (selected_field_in product fields.*1) as (name & Hsel & Hin).
  { by destruct fields. }
  destruct (field_lookup_in name fields Hin) as [column Hcol].
  split.
  - exists name, column. repeat split; try done. by apply field_lookup_elem_of.
  - intros fs vars dims f0 rest s -> Hex Hload Hrt.
    exists name, column. split; [done |]. split; [done |].
    assert (Hc : getitem vars "returnsTable" ≫= returns_column product
                 = Some (field_array dims column)).
    { rewrite Hrt. cbn -[field_lookup]. cbn in Hsel. rewrite Hsel.
      cbn -[field_lookup]. by rewrite Hcol. }
    rewrite load_returns_table_run.
    unfold returns_series, returns_events. by rewrite Hex, Hload, Hc.
Qed.

(** C8. Two runs of the selection for the same product on records with the
    same declared field names select the same field, whatever the records
    hold. *)
Theorem field_selection_deterministic (product : string) (dims1 dims2 : list nat)
    (f1 f2 : string * list pyobject) (fields1 fields2 : list (string * list pyobject)) :
  dtype_names (Structured dims1 f1 fields1) = dtype_names (Structured dims2 f2 fields2) →
  ∃ name,
    selected_field product (dtype_names (Structured dims1 f1 fields1)) = Some name ∧
    selected_field product (dtype_names (Structured dims2 f2 fields2)) = Some name ∧
    returns_column product (Structured dims1 f1 fields1)
      = field_array dims1 <$> field_lookup name (f1 :: fields1) ∧
    returns_column product (Structured dims2 f2 fields2)
      = field_array dims2 <$> field_lookup name (f2 :: fields2).
Proof.
  intros Hnames.
  destruct (selected_field_in product (dtype_names (Structured dims1 f1 fields1)))
    as (name & Hsel & _); [done |].
  exists name. unfold returns_column. rewrite <- Hnames, Hsel. done.
Qed.

Lemma report_returns_run product s :
  (∀ a, combined s !! product = Some a → reportable a = true) →
  report_returns product s =
    (inr (), State (combined s) (stdout s ++ [report_line (combined s) product])).
Proof.
  intros Hrep. unfold report_returns, report_line, np_isnan. run_monad.
  destruct (combined s !! product) as [series |] eqn:E; [| done].
  specialize (Hrep series eq_refl). unfold reportable in Hrep.
  destruct (shape series) as [| n rest] eqn:Hs; [done |].
  cbn. destruct n; [done |]. cbn. by rewrite Hrep.
Qed.

Lemma report_returns_raises product s series :
  combined s !! product = Some series → reportable series = false →
  report_returns product s = (inl TypeError, s).
Proof.
  intros E Hrep. unfold report_returns, np_isnan. run_monad. rewrite E.
  unfold reportable in Hrep.
  destruct (shape series) as [| n rest] eqn:Hs; cbn; [by destruct s |].
  destruct n; [done |]. cbn. rewrite Hrep. by destruct s.
Qed.

Lemma for_each_report l s :
  (∀ p a, p ∈ l → combined s !! p = Some a → reportable a = true) →
  for_each l report_returns s =
    (inr (), State (combined s) (stdout s ++ map (report_line (combined s)) l)).
Proof.
  revert s. induction l as [| p l IH]; intros s Hrep; cbn.
  - rewrite app_nil_r. by destruct s.
  - run_monad. rewrite report_returns_run by (intros a; apply Hrep; by left).
    rewrite IH by (intros q a Hq; apply Hrep; by right).
    cbn. by rewrite <- app_assoc.
Qed.

Lemma for_each_report_raises l pre p post series s :
  l = pre ++ p :: post →
  (∀ q a, q ∈ pre → combined s !! q = Some a → reportable a = true) →
  combined s !! p = Some series → reportable series = false →
  for_each l report_returns s =
    (inl TypeError, State (combined s) (stdout s ++ map (report_line (combined s)) pre)).
Proof.
  intros -> Hpre Hp Hrep. revert s Hpre Hp.
  induction pre as [| q pre IH]; intros s Hpre Hp; cbn.
  - run_monad. rewrite (report_returns_raises p s series) by done.
    rewrite app_nil_r. by destruct s.
  - run_monad. rewrite report_returns_run by (intros a; apply Hpre; by left).
    rewrite IH; cbn; [by rewrite <- app_assoc | | done].
    intros q' a Hq'. apply Hpre. by right.
Qed.

Lemma returns_series_shape fs p : ∃ n, shape (returns_series fs p) = [n].
Proof.
  unfold returns_series.
  destruct (os_path_exists _ _); [| by eexists].
  destruct (scipy_loadmat _ _); [by eexists |].
  destruct (_ ≫= _); by eexists.
Qed.



(** The first element of a list that fails a test, when there is one. *)
Lemma first_failure {A} (P : A → bool) (l : list A) :
  Forall (λ x, P x = true) l ∨
  ∃ pre x post, l = pre ++ x :: post ∧ Forall (λ y, P y = true) pre ∧ P x = false.
Proof.
  induction l as [| x l IH]; [by left |].
  destruct (P x) eqn:Hx.
  - destruct IH as [IH | (pre & y & post & -> & Hpre & Hy)].
    + left. by constructor.
    + right. exists (x :: pre), y, post. split; [done |]. split; [by constructor | done].
  - right. exists [], x, l. by repeat split.
Qed.

Lemma returns_events_load fs p : Forall load_event (returns_events fs p).
Proof.
  unfold returns_events. destruct (os_path_exists _ _); [| by repeat constructor].
  destruct (scipy_loadmat _ _) as [e | vars]; [by repeat constructor |].
  destruct (_ ≫= _); by repeat constructor.
Qed.

Lemma Forall_concat_map {A B} (P : B → Prop) (f : A → list B) (l : list A) :
  (∀ x, Forall P (f x)) → Forall P (concat (map f l)).
Proof.
  intros H. induction l as [| x l IH]; cbn; [done |]. by apply Forall_app.
Qed.

(** The dictionary [combine_returns_tables] has filled when it saves. *)
Lemma returns_panel_lookup fs p :
  p ∈ products →
  foldl (λ c p, <[p := returns_series fs p]> c) (∅ : gmap string ndarray) products !! p
  = Some (returns_series fs p).
Proof. intros Hp. by rewrite panel_lookup, decide_True. Qed.

(** The run of [combine_returns_tables] when the combined file is written
    and read back: the console up to the verification loop is [before]. *)
Lemma combine_returns_tables_verified fs names :
  scipy_savemat fs "EDA_Results/returnsTable.mat" = inr () →
  reload_names fs "EDA_Results/returnsTable.mat" = inr names →
  ∃ before c,
    c = foldl (λ c p, <[p := returns_series fs p]> c) ∅ products ∧
    Forall (λ e, load_event e ∨ ∃ t, e = Info t) before ∧
    run (combine_returns_tables fs) =
      match for_each products report_returns (State c before) with
      | (inr _, s) =>
          (inr true, State (combined s) (stdout s ++ [Info "Returns table ready for Sprint 2!"]))
      | (inl e, s) => (inr false, State (combined s) (stdout s ++ [SaveError e]))
      end.
Proof.
  intros Hsave Hreload.
  pose proof (assemble_returns_tables_run fs
    (State ∅ [Info "=== Combining Returns Tables for Sprint 2 ==="])) as Hasm.
  cbn [combined stdout app] in Hasm.
  set (evs := concat (map (returns_events fs) products)) in *.
  set (c := foldl (λ c p, <[p := returns_series fs p]> c) ∅ products) in *.
  assert (Hevs : Forall load_event evs).
  { apply Forall_concat_map. intros p. apply returns_events_load. }
  assert (Hc : c = foldl (λ c p, <[p := returns_series fs p]> c) ∅ products)
    by reflexivity.
  clearbody c evs.
  exists (Info "=== Combining Returns Tables for Sprint 2 ===" ::
          (((evs ++ [Info "Saving combined returnsTable.mat..."])
             ++ [Info "Successfully saved EDA_Results/returnsTable.mat"])
            ++ [Info "=== Verification ==="])
           ++ [Info "Combined returns table contains:"]), c.
  split; [done |]. split.
  - constructor; [right; eauto |].
    do 4 (apply Forall_app; split; [| apply Forall_singleton; right; eauto]).
    eapply Forall_impl; [exact Hevs | auto].
  - unfold run, combine_returns_tables, mbind, M_bind, print, try_except.
    cbn -[assemble_returns_tables for_each].
    rewrite Hasm. cbn -[for_each]. rewrite Hsave. cbn -[for_each].
    rewrite Hreload. cbn -[for_each].
    by destruct (for_each products report_returns _) as [[e | []] s'].
Qed.

Lemma report_line_product c p :
  report_line c p = NoData p ∨ ∃ n v, report_line c p = ReturnsReport p n v.
Proof.
  unfold report_line. destruct (c !! p) as [series |]; [| by left].
  destruct (shape series) as [| n rest]; [by left |].
  destruct (0 <? n)%nat; [right; eauto | by left].
Qed.






(** ** The theorems at sample inputs *)

Ltac in_products := apply (bool_decide_unpack _); vm_compute; exact I.

Lemma panel_covers_universe_witness :
  ∃ v, (run (combine_returns_tables returns_fs)).2.(combined) !! "regdown" = Some v.
Proof.
  destruct (proj2 panel_covers_universe returns_fs) as (b & s & Hrun & _ & Hkeys).
  destruct (Hkeys "regdown") as (v & Hv & _); [in_products |].
  exists v. rewrite Hrun. exact Hv.
Defined.

Lemma missing_source_witness :
  ∃ b s, run (combine_regime_labels labels_fs) = (inr b, s) ∧
    combined s !! "regup" = Some empty_array.
Proof.
  destruct (proj1 missing_source_degrades_per_product labels_fs "regup")
    as (b & s & Hrun & Hempty & _).
  - in_products.
  - right. exists ValueError. reflexivity.
  - exists b, s. split; assumption.
Defined.

Lemma regime_first_variable_witness :
  (∃ b s, run (combine_regime_labels labels_fs) = (inr b, s) ∧
     combined s !! "nodalPrices" = Some (NdArray Numeric [3%nat] [num 1; num 1; NaN])) ∧
  (∃ b s, run (combine_regime_labels struct_labels_fs) = (inr b, s) ∧
     combined s !! "nodalPrices" = Some empty_array ∧ LoadError TypeError ∈ stdout s).
Proof.
  split.
  - destruct (regime_first_variable_stored labels_fs "nodalPrices" labels_vars)
      as (b & s & Hrun & Hfirst & _).
    + in_products.
    + reflexivity.
    + reflexivity.
    + exists b, s. split; [exact Hrun |].
      destruct (Hfirst (metadata (Plain (MatArray 0 0 [] []))) "regimeLabels"
                  (Plain (MatArray 3 1 [] [num 1; num 1; NaN])) [])
        as [Hnum _].
      * reflexivity.
      * repeat constructor.
      * reflexivity.
      * destruct (Hnum _ eq_refl) as (v & Hv & -> & _). exact Hv.
  - destruct (regime_first_variable_stored struct_labels_fs "nodalPrices" struct_labels_vars)
      as (b & s & Hrun & Hfirst & _).
    + in_products.
    + reflexivity.
    + reflexivity.
    + exists b, s. split; [exact Hrun |].
      destruct (Hfirst (metadata (Plain (MatArray 0 0 [] []))) "regimeLabels"
                  labels_record [("counts", Plain (MatArray 1 2 [] [num 2; num 1]))])
        as [_ Hother].
      * reflexivity.
      * repeat constructor.
      * reflexivity.
      * apply Hother. reflexivity.
Defined.

Lemma vectors_flattened_witness :
  ∃ b s v, run (combine_regime_labels labels_fs) = (inr b, s) ∧
    combined s !! "nodalPrices" = Some v ∧ shape v = [3%nat] ∧
    data v = [num 1; num 1; NaN] ∧ length (data v) = 3%nat.
Proof.
  destruct (proj1 vectors_are_flattened_in_order labels_fs "nodalPrices" labels_vars
              "regimeLabels" (MatArray 3 1 [] [num 1; num 1; NaN]) 3%nat)
    as (b & s & v & Hrun & Hv & Hshape & Hdata & Hlen & _).
  - in_products.
  - reflexivity.
  - reflexivity.
  - reflexivity.
  - right. reflexivity.
  - exists b, s, v. repeat split; try assumption. apply Hlen. reflexivity.
Defined.

Lemma selection_never_fails_witness :
  ∃ name column,
    selected_field "hubPrices" ["Timestamp"; "hubPrices"] = Some name ∧
    field_lookup name
      [("Timestamp", [PyObject "array([[100.], [101.], [102.]])"]);
       ("hubPrices", [PyObject "array([[7.], [nan], [9.]])"])] = Some column.
Proof.
  destruct (selection_never_fails "hubPrices"
              [("Timestamp", [PyObject "array([[100.], [101.], [102.]])"]);
               ("hubPrices", [PyObject "array([[7.], [nan], [9.]])"])])
    as [(name & column & Hsel & _ & Hlook & _) _].
  - discriminate.
  - exists name, column. split; assumption.
Defined.

Lemma field_selection_deterministic_witness :
  ∃ name,
    returns_column "regup"
      (Structured [1%nat; 1%nat] ("Time", [PyObject "array([[1.], [2.]])"])
                  [("Value", [PyObject "array([[3.], [4.]])"])])
      = field_array [1%nat; 1%nat] <$>
        field_lookup name [("Time", [PyObject "array([[1.], [2.]])"]);
                           ("Value", [PyObject "array([[3.], [4.]])"])] ∧
    returns_column "regup"
      (Structured [1%nat; 2%nat] ("Time", [PyObject "5.0"; PyObject "6.0"])
                  [("Value", [PyObject "nan"; PyObject "8.0"])])
      = field_array [1%nat; 2%nat] <$>
        field_lookup name [("Time", [PyObject "5.0"; PyObject "6.0"]);
                           ("Value", [PyObject "nan"; PyObject "8.0"])].
Proof.
  destruct (field_selection_deterministic "regup" [1%nat; 1%nat] [1%nat; 2%nat]
              ("Time", [PyObject "array([[1.], [2.]])"])
              ("Time", [PyObject "5.0"; PyObject "6.0"])
              [("Value", [PyObject "array([[3.], [4.]])"])]
              [("Value", [PyObject "nan"; PyObject "8.0"])])
    as (name & _ & _ & H1 & H2).
  - reflexivity.
  - exists name. split; assumption.
Defined.

Lemma selected_field_precedence_witness :
  selected_field "nodalPrices" ["Timestamp"; "hubPrices"; "nodalPrices"] = Some "hubPrices" ∧
  selected_field "regup" ["Time"; "Timestamp"] = Some "Time".
Proof.
  split.
  - apply (proj1 (selected_field_precedence "nodalPrices" ["Timestamp"; "hubPrices"; "nodalPrices"])
             ["Timestamp"] "hubPrices" ["nodalPrices"]).
    + reflexivity.
    + repeat constructor.
    + reflexivity.
    + discriminate.
  - apply (proj2 (proj2 (selected_field_precedence "regup" ["Time"; "Timestamp"])
             ltac:(repeat constructor))).
    repeat constructor.
Defined.



End PanelProofs.

(* ===================================================================== *)
(** * Further properties of the validation guard *)
(* ===================================================================== *)

Module GuardMore.
Import Guard GuardProofs.
Local Open Scope Q_scope.

Lemma py_lt_spec (a b : pynum) : py_lt a b = true ↔ value a < value b.
Proof.
  unfold py_lt. rewrite negb_true_iff. split.
  - intros H. apply Qnot_le_lt. intros Hle. apply Qle_bool_iff in Hle. congruence.
  - intros H. destruct (Qle_bool (value b) (value a)) eqn:E; [| reflexivity].
    apply Qle_bool_iff in E. lra.
Qed.

Lemma py_lt_false (a b : pynum) : py_lt a b = false ↔ value b <= value a.
Proof.
  unfold py_lt. rewrite negb_false_iff. apply Qle_bool_iff.
Qed.

(** [round(max(1, nu))] by cases on [nu]. *)
Lemma df_int_cases (nu : pynum) :
  (value nu <= 1 ∧ df_int nu = PyInt 1) ∨
  (1 < value nu ∧ df_int nu = py_round nu).
Proof.
  unfold df_int, py_max, py_gt. destruct (py_lt (PyInt 1) nu) eqn:E.
  - right. apply py_lt_spec in E. cbn in E. split; [exact E | reflexivity].
  - left. apply py_lt_false in E. cbn in E. split; [exact E | reflexivity].
Qed.

Lemma inject_Z_lt_1 (n : Z) : 1 < inject_Z n → (2 <= n)%Z.
Proof. intros H. change 1 with (inject_Z 1) in H. rewrite <- Zlt_Qlt in H. lia. Qed.

Lemma Qfloor_ge_1 (q : Q) : 1 < q → (1 <= Qfloor q)%Z.
Proof.
  intros H. change 1%Z with (Qfloor 1). apply Qfloor_resp_le. apply Qlt_le_weak, H.
Qed.

(** X1. The coercion is idempotent: applied again to a stored value, as the
    sampling side does, it changes nothing. *)
Theorem df_int_idempotent (nu : pynum) : df_int (df_int nu) = df_int nu.
Proof.
  destruct (df_int_rounds nu) as (z & Hz & _ & Hge & _). rewrite Hz.
  destruct (df_int_cases (PyInt z)) as [[Hle H] | [Hgt H]]; rewrite H.
  - cbn in Hle. change 1 with (inject_Z 1) in Hle. rewrite <- Zle_Qle in Hle.
    f_equal. lia.
  - reflexivity.
Qed.

Lemma round_half_even_one (q : Q) : 1 < q → (round_half_even q = 1%Z ↔ q < 3 # 2).
Proof.
  intros Hgt. unfold round_half_even.
  destruct (floor_bounds q) as [Hlo Hhi]. pose proof (Qfloor_ge_1 q Hgt) as Hf.
  set (f := Qfloor q) in *.
  assert (Hcases : (f = 1 ∨ 2 <= f)%Z) by lia.
  destruct Hcases as [Hf1 | Hf2].
  - rewrite Hf1 in *. change (inject_Z 1) with 1 in *.
    destruct (Qcompare (q - 1) (1 # 2)) eqn:Hc.
    + apply Qeq_alt in Hc. cbn. split; [lia | lra].
    + apply Qlt_alt in Hc. split; [lra | reflexivity].
    + apply Qgt_alt in Hc. split; [lia | lra].
  - assert (H2 : 2 <= inject_Z f).
    { change 2 with (inject_Z 2). rewrite <- Zle_Qle. exact Hf2. }
    split.
    + intros H. destruct (Qcompare _ _); [destruct (Z.even f) |..]; lia.
    + intros H. lra.
Qed.

(** X2. The stored value is 1 exactly for the estimates below 1.5 (at 1.5
    the tie goes to 2). *)
Theorem df_int_one_iff (nu : pynum) : df_int nu = PyInt 1 ↔ value nu < 3 # 2.
Proof.
  destruct (df_int_cases nu) as [[Hle H] | [Hgt H]]; rewrite H.
  - split; [intros _; lra | reflexivity].
  - destruct nu as [n | q]; cbn [py_round value] in *.
    + pose proof (inject_Z_lt_1 n Hgt) as Hn.
      assert (H2 : 2 <= inject_Z n).
      { change 2 with (inject_Z 2). rewrite <- Zle_Qle. exact Hn. }
      split; [intros [= ->]; lia | intros ?; lra].
    + rewrite <- (round_half_even_one q Hgt). split; [intros [= ->]; reflexivity | intros ->; reflexivity].
Qed.

Lemma round_half_even_le_succ (q : Q) : (round_half_even q <= Qfloor q + 1)%Z.
Proof.
  unfold round_half_even.
  destruct (Qcompare _ _); [destruct (Z.even _) |..]; lia.
Qed.

Lemma round_half_even_mono (q q' : Q) : q <= q' → (round_half_even q <= round_half_even q')%Z.
Proof.
  intros Hle. pose proof (Qfloor_resp_le _ _ Hle) as Hf.
  assert (Hcases : (Qfloor q = Qfloor q' ∨ Qfloor q + 1 <= Qfloor q')%Z) by lia.
  destruct Hcases as [Heq | Hlt].
  - unfold round_half_even. rewrite <- Heq.
    destruct (Qcompare (q - inject_Z (Qfloor q)) (1 # 2)) eqn:Hc;
      destruct (Qcompare (q' - inject_Z (Qfloor q)) (1 # 2)) eqn:Hc';
      try (destruct (Z.even (Qfloor q))); try lia;
      repeat match goal with
             | H : Qcompare _ _ = Eq |- _ => apply Qeq_alt in H
             | H : Qcompare _ _ = Lt |- _ => apply Qlt_alt in H
             | H : Qcompare _ _ = Gt |- _ => apply Qgt_alt in H
             end; lra.
  - pose proof (round_half_even_le_succ q). pose proof (round_half_even_ge_floor q'). lia.
Qed.

(** X3. The coercion is monotone: a larger estimate never gets a smaller
    degrees-of-freedom value. *)
Theorem df_int_monotone (a b : pynum) (za zb : Z) :
  df_int a = PyInt za → df_int b = PyInt zb → value a <= value b → (za <= zb)%Z.
Proof.
  intros Ha Hb Hle.
  destruct (df_int_rounds b) as (z & Hz & _ & Hge & _).
  assert (z = zb) by congruence. subst z.
  destruct (df_int_cases a) as [[Ha1 H] | [Ha1 H]]; rewrite H in Ha.
  { injection Ha as Hza. rewrite <- Hza. exact Hge. }
  destruct (df_int_cases b) as [[Hb1 H'] | [Hb1 H']]; rewrite H' in Hb; [lra |].
  destruct a as [n | q], b as [n' | q']; cbn [py_round value] in *;
    injection Ha as Hza; injection Hb as Hzb; subst za zb.
  - by rewrite <- Zle_Qle in Hle.
  - apply Z.le_trans with (Qfloor q'); [| apply round_half_even_ge_floor].
    rewrite <- (Qfloor_Z n). by apply Qfloor_resp_le.
  - destruct (Z_lt_le_dec n' (round_half_even q)) as [Hlt | ?]; [| done].
    exfalso.
    assert (Hfl : (Qfloor q <= n')%Z).
    { rewrite <- (Qfloor_Z n'). by apply Qfloor_resp_le. }
    pose proof (round_half_even_le_succ q) as Hs.
    assert (Hr : round_half_even q = (n' + 1)%Z) by lia.
    assert (Hf : Qfloor q = n') by lia.
    destruct (round_half_even_rounds q) as [Hab _]. rewrite Hr in Hab.
    destruct (floor_bounds q) as [Hlo Hhi]. rewrite Hf in Hlo.
    assert (Hq : q == inject_Z n') by lra.
    apply Qabs_Qle_condition in Hab. rewrite inject_Z_succ in Hab. lra.
  - by apply round_half_even_mono.
Qed.

(** X4. A float estimate halfway between two integers [k] and [k + 1],
    for [k] from 1 on and below 2^52 (beyond which no double lies halfway
    between two integers), goes to the even one ([round] of Python), so 2.5
    is stored as 2 and 3.5 as 4. *)
Theorem df_int_tie_to_even (k : Z) :
  (1 <= k < 2 ^ 52)%Z →
  df_int (PyFloat (inject_Z k + (1 # 2))) = PyInt (if Z.even k then k else k + 1).
Proof.
  intros [Hk _].
  assert (Hk1 : 1 <= inject_Z k).
  { change 1 with (inject_Z 1). by rewrite <- Zle_Qle. }
  destruct (df_int_cases (PyFloat (inject_Z k + (1 # 2)))) as [[Hle H] | [Hgt H]];
    cbn [value] in *; [lra |].
  rewrite H. cbn [py_round]. f_equal. unfold round_half_even.
  assert (Hf : Qfloor (inject_Z k + (1 # 2)) = k).
  { pose proof (floor_bounds (inject_Z k + (1 # 2))) as [Hlo Hhi].
    set (f := Qfloor _) in *.
    assert (H1 : inject_Z f < inject_Z (k + 1)) by (rewrite inject_Z_succ; lra).
    assert (H2 : inject_Z k < inject_Z (f + 1)) by (rewrite inject_Z_succ; lra).
    rewrite <- Zlt_Qlt in H1, H2. lia. }
  rewrite Hf.
  assert (Hc : Qcompare (inject_Z k + (1 # 2) - inject_Z k) (1 # 2) = Eq).
  { apply Qeq_alt. lra. }
  by rewrite Hc.
Qed.

(** [math.floor(min(1000, size))] by cases on [size]. *)
Lemma nSim_cases (size : pynum) :
  (1000 <= value size ∧ nSim size = PyInt 1000) ∨
  (value size < 1000 ∧ nSim size = math_floor size).
Proof.
  unfold nSim, py_min. destruct (py_lt size (PyInt 1000)) eqn:E.
  - right. apply py_lt_spec in E. cbn in E. split; [exact E | reflexivity].
  - left. apply py_lt_false in E. cbn in E. split; [exact E | reflexivity].
Qed.

Lemma math_floor_value (size : pynum) : math_floor size = PyInt (Qfloor (value size)).
Proof.
  destruct size as [n | q]; cbn [math_floor value]; [by rewrite Qfloor_Z | reflexivity].
Qed.

(** X5. [nSim] never exceeds the cap 1000 nor the batch size, and an integer
    batch size up to 1000 is kept as it is. *)
Theorem nSim_capped (size : pynum) (z : Z) :
  nSim size = PyInt z →
  (z <= 1000)%Z ∧ inject_Z z <= value size ∧
  (∀ n : Z, size = PyInt n → (n <= 1000)%Z → z = n).
Proof.
  intros Hz. destruct (nSim_cases size) as [[Hge H] | [Hlt H]]; rewrite H in Hz.
  - injection Hz as Hz. subst z. split; [lia |]. split; [exact Hge |].
    intros n -> Hn. cbn in Hge. change 1000 with (inject_Z 1000) in Hge.
    rewrite <- Zle_Qle in Hge. lia.
  - rewrite math_floor_value in Hz. injection Hz as Hz. subst z.
    destruct (floor_bounds (value size)) as [Hlo Hhi].
    split; [| split; [exact Hlo |]].
    + assert (Hc : inject_Z (Qfloor (value size)) < inject_Z 1000).
      { change (inject_Z 1000) with 1000. lra. }
      rewrite <- Zlt_Qlt in Hc. lia.
    + intros n -> _. cbn. apply Qfloor_Z.
Qed.

Lemma nSim_int (z : Z) : nSim (PyInt z) = PyInt (Z.min 1000 z).
Proof.
  destruct (nSim_cases (PyInt z)) as [[Hge H] | [Hlt H]]; rewrite H.
  - cbn in Hge. change 1000 with (inject_Z 1000) in Hge.
    rewrite <- Zle_Qle in Hge. f_equal. lia.
  - cbn in Hlt |- *. change 1000 with (inject_Z 1000) in Hlt.
    rewrite <- Zlt_Qlt in Hlt. f_equal. lia.
Qed.

Lemma py_ge_int (a b : Z) : py_ge (PyInt a) (PyInt b) = (b <=? a)%Z.
Proof.
  unfold py_ge. cbn [value]. apply eq_true_iff_eq.
  by rewrite Qle_bool_iff, <- Zle_Qle, Z.leb_le.
Qed.

(** X6. One turn of the loop over the sizes. For an [int] size the script
    prints the size line, with [nSim] the smaller of 1000 and the size, and
    then takes the sampling branch exactly when the size is at least 2: the
    cap plays no part in that decision. For a [float] size the format
    [{size:4d}] of the size line raises [ValueError], so that neither
    branch is taken. *)
Theorem sampling_iff_two_rows :
  (∀ z : Z,
     check_size (PyInt z) =
       Some [MatrixSize z (Z.min 1000 z);
             Branch (if (2 <=? z)%Z then Proceed (PyInt (Z.min 1000 z))
                     else SkipSampling (PyInt (Z.min 1000 z)))]) ∧
  (∀ q : Q, check_size (PyFloat q) = None).
Proof.
  split; [| done].
  intros z. unfold check_size, copula_sampling. rewrite nSim_int, py_ge_int.
  cbn [format_d mbind option_bind]. do 3 f_equal.
  assert (Hb : (2 <=? Z.min 1000 z)%Z = (2 <=? z)%Z).
  { destruct (Z.leb_spec 2 z), (Z.leb_spec 2 (Z.min 1000 z)); lia. }
  by rewrite Hb.
Qed.

(** ** The theorems at sample inputs *)

Lemma df_int_monotone_witness :
  df_int (PyFloat (25 # 10)) = PyInt 2 ∧ df_int (PyFloat (37 # 10)) = PyInt 4 ∧
  (2 <= 4)%Z.
Proof.
  split; [reflexivity |]. split; [reflexivity |].
  apply (df_int_monotone (PyFloat (25 # 10)) (PyFloat (37 # 10)) 2 4).
  - reflexivity.
  - reflexivity.
  - cbn. unfold Qle. cbn. lia.
Defined.

Lemma df_int_tie_witness : df_int (PyFloat (inject_Z 2 + (1 # 2))) = PyInt 2.
Proof. apply (df_int_tie_to_even 2). split; [lia | reflexivity]. Defined.

Lemma nSim_capped_witness : nSim (PyInt 5000) = PyInt 1000 ∧ (1000 <= 1000)%Z.
Proof.
  split; [reflexivity |].
  apply (proj1 (nSim_capped (PyInt 5000) 1000 eq_refl)).
Defined.

End GuardMore.

(* ===================================================================== *)
(** * Properties of the readiness check *)
(* ===================================================================== *)

Module ReadinessProofs.
Import Readiness ReadinessExamples.

Lemma outputs_weaken {A} (Q Q' : list string → Prop) (m : R A) x :
  (∀ lines, Q lines → Q' lines) → outputs Q m x → outputs Q' m x.
Proof. intros HQ (lines & H & Hm). exists lines. auto. Qed.

Lemma outputs_ret {A} (x : A) : outputs (λ lines, lines = []) (mret x) x.
Proof. exists []. split; [done |]. intros out. cbn. by rewrite app_nil_r. Qed.

Lemma outputs_print (line : string) : outputs (λ lines, lines = [line]) (print line) ().
Proof. exists [line]. split; [done |]. by intros out. Qed.

Lemma outputs_bind {A B} (Q1 Q2 : list string → Prop) (m : R A) (f : A → R B) x y :
  outputs Q1 m x → outputs Q2 (f x) y →
  outputs (λ lines, ∃ l1 l2, lines = l1 ++ l2 ∧ Q1 l1 ∧ Q2 l2) (m ≫= f) y.
Proof.
  intros (l1 & H1 & Hm) (l2 & H2 & Hf). exists (l1 ++ l2). split; [by eauto |].
  intros out. unfold mbind, R_bind. rewrite Hm, Hf. by rewrite app_assoc.
Qed.

Lemma raises_bind_l {A B} (m : R A) (f : A → R B) e : raises m e → raises (m ≫= f) e.
Proof.
  intros Hm out. destruct (Hm out) as [out' H]. exists out'.
  unfold mbind, R_bind. by rewrite H.
Qed.

Lemma raises_bind_r {A B} Q (m : R A) (f : A → R B) x e :
  outputs Q m x → raises (f x) e → raises (m ≫= f) e.
Proof.
  intros (l1 & _ & Hm) Hf out. destruct (Hf (out ++ l1)) as [out' H]. exists out'.
  unfold mbind, R_bind. by rewrite Hm.
Qed.

(** Every printed line satisfies [P]. *)
Lemma outputs_all_bind {A B} (P : string → Prop) (m : R A) (f : A → R B) x y :
  outputs (Forall P) m x → outputs (Forall P) (f x) y → outputs (Forall P) (m ≫= f) y.
Proof.
  intros H1 H2. eapply outputs_weaken; [| by eapply outputs_bind].
  intros lines (l1 & l2 & -> & ? & ?). by apply Forall_app.
Qed.

Lemma outputs_all_print (P : string → Prop) line : P line → outputs (Forall P) (print line) ().
Proof.
  intros H. eapply outputs_weaken; [| apply outputs_print].
  intros lines ->. by repeat constructor.
Qed.

Lemma outputs_all_ret {A} (P : string → Prop) (x : A) : outputs (Forall P) (mret x) x.
Proof. eapply outputs_weaken; [| apply outputs_ret]. by intros lines ->. Qed.

Lemma plain_ok (text : string) : plain ("✅ " +:+ text).
Proof. split; discriminate. Qed.

Lemma plain_bad (text : string) : plain ("❌ " +:+ text).
Proof. split; discriminate. Qed.

Lemma plain_nl (text : string) : plain (nl +:+ text).
Proof. split; discriminate. Qed.

Lemma check_file_exists_outputs h filepath description :
  outputs (Forall plain) (check_file_exists h filepath description)
          (os_path_exists h filepath).
Proof.
  unfold check_file_exists. destruct (os_path_exists h filepath).
  - eapply outputs_all_bind; [apply outputs_all_print, plain_ok | apply outputs_all_ret].
  - eapply outputs_all_bind; [apply outputs_all_print, plain_bad | apply outputs_all_ret].
Qed.

Lemma check_code_fix_found h filepath pattern description content text :
  read_text h filepath = inr content → re_literal pattern = Some text →
  outputs (Forall plain) (check_code_fix h filepath pattern description)
          (Panel.contains text content).
Proof.
  intros Hread Hlit. unfold check_code_fix, re_search. rewrite Hlit.
  destruct (Panel.contains text content) eqn:Hc.
  - exists ["✅ " +:+ description]. split; [repeat constructor; apply plain_ok |].
    intros out. unfold try_except_FileNotFoundError, mbind, R_bind, lift. rewrite Hread.
    cbn. by rewrite Hc.
  - exists ["❌ " +:+ description]. split; [repeat constructor; apply plain_bad |].
    intros out. unfold try_except_FileNotFoundError, mbind, R_bind, lift. rewrite Hread.
    cbn. by rewrite Hc.
Qed.

Lemma check_code_fix_absent h filepath pattern description :
  read_text h filepath = inl FileNotFoundError →
  outputs (Forall plain) (check_code_fix h filepath pattern description) false.
Proof.
  intros Hread. exists ["❌ " +:+ description +:+ " - File not found: " +:+ filepath].
  split; [repeat constructor; apply plain_bad |].
  intros out. unfold check_code_fix, try_except_FileNotFoundError, mbind, R_bind, lift.
  by rewrite Hread.
Qed.

Lemma check_code_fix_raises h filepath pattern description e :
  read_text h filepath = inl e → e ≠ FileNotFoundError →
  raises (check_code_fix h filepath pattern description) e.
Proof.
  intros Hread Hne out. exists out.
  unfold check_code_fix, try_except_FileNotFoundError, mbind, R_bind, lift.
  rewrite Hread. by destruct e.
Qed.

Lemma check_code_fix_has_text h filepath pattern description text :
  readable_or_absent h filepath → re_literal pattern = Some text →
  outputs (Forall plain) (check_code_fix h filepath pattern description)
          (has_text h filepath text).
Proof.
  unfold readable_or_absent, has_text. intros Hr Hlit.
  destruct (read_text h filepath) as [e | content] eqn:Hread.
  - subst e. by apply check_code_fix_absent.
  - by eapply check_code_fix_found.
Qed.

Lemma for_checks_outputs {A} (P : string → Prop) (l : list A) (check : A → R bool)
    (f : A → bool) (acc : bool) :
  (∀ x, x ∈ l → outputs (Forall P) (check x) (f x)) →
  outputs (Forall P) (for_checks l check acc) (acc && forallb f l).
Proof.
  revert acc. induction l as [| x l IH]; intros acc Hcheck; cbn [for_checks forallb].
  - rewrite andb_true_r. apply outputs_all_ret.
  - eapply outputs_all_bind; [apply Hcheck; by left |].
    replace (acc && (f x && forallb f l)) with ((if negb (f x) then false else acc) && forallb f l)
      by (by destruct (f x), acc).
    apply IH. intros y Hy. apply Hcheck. by right.
Qed.

Lemma for_checks_raises {A} (l : list A) (check : A → R bool) (acc : bool) x l' e :
  l = x :: l' → raises (check x) e → raises (for_checks l check acc) e.
Proof. intros -> H. cbn. by apply raises_bind_l. Qed.

Lemma outputs_prefix {A B} (v : bool) (m : R A) (f : A → R B) x y :
  outputs (Forall plain) m x → outputs (summary_of v) (f x) y →
  outputs (summary_of v) (m ≫= f) y.
Proof.
  intros H1 H2. eapply outputs_weaken; [| by eapply outputs_bind].
  intros lines (l1 & l2 & -> & Hl1 & pre & post & -> & Hpre & Hpost).
  exists (l1 ++ pre), post. rewrite <- app_assoc. split; [done |].
  split; [by apply Forall_app | done].
Qed.

Lemma essential_files_outputs h acc :
  outputs (Forall plain)
    (for_checks essential_files
       (λ '(filename, description),
          let filepath := os_path_join base_path filename in
          check_file_exists h filepath description) acc)
    (acc && forallb (λ f, os_path_exists h (in_base f.1)) essential_files).
Proof.
  apply for_checks_outputs. intros [filename description] _.
  apply check_file_exists_outputs.
Qed.

Lemma data_files_outputs h acc :
  outputs (Forall plain)
    (for_checks data_files
       (λ data_file,
          let filepath := os_path_join base_path data_file in
          check_file_exists h filepath ("Data file: " +:+ data_file)) acc)
    (acc && forallb (λ f, os_path_exists h (in_base f)) data_files).
Proof.
  apply for_checks_outputs. intros data_file _. apply check_file_exists_outputs.
Qed.

Lemma fixes_literal :
  Forall2 (λ f text, re_literal f.1 = Some text) fixes fit_copula_texts ∧
  Forall2 (λ f text, re_literal f.1 = Some text) sim_fixes sim_engine_texts ∧
  re_literal "config\.copulaType = 't'" = Some "config.copulaType = 't'".
Proof. repeat split; repeat constructor. Qed.

Lemma code_fixes_outputs h path prefix (l : list (string * string)) (texts : list string) acc :
  readable_or_absent h path →
  Forall2 (λ f text, re_literal f.1 = Some text) l texts →
  outputs (Forall plain)
    (for_checks l
       (λ '(pattern, description),
          check_code_fix h path pattern (prefix +:+ description)) acc)
    (acc && forallb (has_text h path) texts).
Proof.
  intros Hr Hlit. revert acc.
  induction Hlit as [| [pattern description] text l texts Hp _ IH]; intros acc;
    cbn [for_checks forallb].
  - rewrite andb_true_r. apply outputs_all_ret.
  - eapply outputs_all_bind; [by apply check_code_fix_has_text |].
    replace (acc && (has_text h path text && forallb (has_text h path) texts))
      with ((if negb (has_text h path text) then false else acc)
            && forallb (has_text h path) texts)
      by (by destruct (has_text h path text), acc).
    apply IH.
Qed.

Lemma summary_outputs (v : bool) :
  outputs (summary_of v)
    ((if v then
        print "🎉 ALL CHECKS PASSED!" ;;
        print (nl +:+ "📋 Ready for execution:") ;;
        print "   1. Run Sprint 3: runEmpiricalCopulaBootstrapping('userConfig.m')" ;;
        print "   2. Run Sprint 5: runSimulationEngine('userConfig.m')" ;;
        print "   3. Continue with Sprints 6 & 7" ;;
        print (nl +:+ "💡 Our integer validation fixes should resolve the 'Size inputs must be integers' error.")
      else
        print "⚠️  SOME CHECKS FAILED!" ;;
        print "   Please review the failed checks above before proceeding.") ;;
     mret v) v.
Proof.
  destruct v.
  - eapply outputs_weaken;
      [| eapply outputs_bind;
           [eapply outputs_bind; [apply outputs_print |] | apply outputs_ret]].
    + intros lines (l12 & l3 & -> & (l1 & l2 & -> & -> & Hl2) & ->).
      exists [], l2. rewrite app_nil_r. by repeat split.
    + repeat (eapply outputs_all_bind; [apply outputs_all_print; split; discriminate |]).
      apply outputs_all_print; split; discriminate.
  - eapply outputs_weaken;
      [| eapply outputs_bind;
           [eapply outputs_bind; [apply outputs_print |] | apply outputs_ret]].
    + intros lines (l12 & l3 & -> & (l1 & l2 & -> & -> & Hl2) & ->).
      exists [], l2. rewrite app_nil_r. by repeat split.
    + apply outputs_all_print; split; discriminate.
Qed.

Lemma main_outputs h :
  readable_or_absent h (in_base "fit_copula_per_regime.m") →
  readable_or_absent h (in_base "runSimulationEngine.m") →
  readable_or_absent h (in_base "userConfig.m") →
  outputs (summary_of (verdict h)) (main h) (verdict h).
Proof.
  intros Hfit Hsim Hcfg. destruct fixes_literal as (Lfit & Lsim & Lcfg).
  unfold main, verdict.
  set (A := forallb (λ f, os_path_exists h (in_base f.1)) essential_files).
  set (B := forallb (λ f, os_path_exists h (in_base f)) data_files).
  set (C := forallb (has_text h (in_base "fit_copula_per_regime.m")) fit_copula_texts).
  set (D := forallb (has_text h (in_base "runSimulationEngine.m")) sim_engine_texts).
  eapply outputs_prefix; [apply outputs_all_print; split; discriminate |].
  eapply outputs_prefix; [apply outputs_all_print; split; discriminate |].
  eapply outputs_prefix; [apply outputs_all_print, plain_nl |].
  eapply outputs_prefix; [apply (essential_files_outputs h true) |]. cbn [andb]. fold A.
  eapply outputs_prefix; [apply outputs_all_print, plain_nl |].
  eapply outputs_prefix; [apply (data_files_outputs h A) |]. fold B.
  eapply outputs_prefix; [apply outputs_all_print, plain_nl |].
  eapply outputs_prefix.
  { destruct (negb _); apply outputs_all_print; split; discriminate. }
  eapply outputs_prefix; [apply outputs_all_print, plain_nl |].
  eapply outputs_prefix; [by apply (code_fixes_outputs h _ _ fixes fit_copula_texts) |].
  fold C.
  eapply outputs_prefix; [by apply (code_fixes_outputs h _ _ sim_fixes sim_engine_texts) |].
  fold D.
  eapply outputs_prefix; [apply outputs_all_print, plain_nl |].
  eapply outputs_prefix; [by eapply check_code_fix_has_text |].
  eapply outputs_prefix.
  { destruct (has_text _ _ _); [apply outputs_all_print; split; discriminate | apply outputs_all_ret]. }
  eapply outputs_prefix; [apply outputs_all_print, plain_nl |].
  apply summary_outputs.
Qed.

Ltac plain_step :=
  first
    [ apply outputs_all_print, plain_nl
    | apply outputs_all_print; split; discriminate
    | apply essential_files_outputs
    | apply data_files_outputs
    | destruct (negb _); apply outputs_all_print; split; discriminate ].

Lemma main_raises_fit h e :
  read_text h (in_base "fit_copula_per_regime.m") = inl e → e ≠ FileNotFoundError →
  raises (main h) e.
Proof.
  intros Hread Hne. unfold main.
  do 9 (eapply (raises_bind_r (Forall plain)); [plain_step |]).
  apply raises_bind_l. eapply for_checks_raises; [reflexivity |].
  by apply check_code_fix_raises.
Qed.

Lemma main_raises_sim h e :
  readable_or_absent h (in_base "fit_copula_per_regime.m") →
  read_text h (in_base "runSimulationEngine.m") = inl e → e ≠ FileNotFoundError →
  raises (main h) e.
Proof.
  intros Hfit Hread Hne. destruct fixes_literal as (Lfit & _ & _). unfold main.
  do 9 (eapply (raises_bind_r (Forall plain)); [plain_step |]).
  eapply (raises_bind_r (Forall plain)); [by apply (code_fixes_outputs h _ _ fixes fit_copula_texts) |].
  apply raises_bind_l. eapply for_checks_raises; [reflexivity |].
  by apply check_code_fix_raises.
Qed.

Lemma main_raises_config h e :
  readable_or_absent h (in_base "fit_copula_per_regime.m") →
  readable_or_absent h (in_base "runSimulationEngine.m") →
  read_text h (in_base "userConfig.m") = inl e → e ≠ FileNotFoundError →
  raises (main h) e.
Proof.
  intros Hfit Hsim Hread Hne. destruct fixes_literal as (Lfit & Lsim & _). unfold main.
  do 9 (eapply (raises_bind_r (Forall plain)); [plain_step |]).
  eapply (raises_bind_r (Forall plain)); [by apply (code_fixes_outputs h _ _ fixes fit_copula_texts) |].
  eapply (raises_bind_r (Forall plain)); [by apply (code_fixes_outputs h _ _ sim_fixes sim_engine_texts) |].
  eapply (raises_bind_r (Forall plain)); [plain_step |].
  apply raises_bind_l. by apply check_code_fix_raises.
Qed.

Lemma readable_or_absent_dec h path :
  readable_or_absent h path ∨ ∃ e, read_text h path = inl e ∧ e ≠ FileNotFoundError.
Proof.
  unfold readable_or_absent. destruct (read_text h path) as [e | content]; [| by left].
  destruct (decide (e = FileNotFoundError)); [by left | right; eauto].
Qed.

(** A run that returns has read, or found absent, each of the three files. *)
Lemma main_returns_readable h out b out' :
  main h out = (inr b, out') →
  readable_or_absent h (in_base "fit_copula_per_regime.m") ∧
  readable_or_absent h (in_base "runSimulationEngine.m") ∧
  readable_or_absent h (in_base "userConfig.m").
Proof.
  intros Hmain.
  destruct (readable_or_absent_dec h (in_base "fit_copula_per_regime.m")) as [Hfit | (e & He & Hne)].
  2: { destruct (main_raises_fit h e He Hne out) as [? H]. congruence. }
  destruct (readable_or_absent_dec h (in_base "runSimulationEngine.m")) as [Hsim | (e & He & Hne)].
  2: { destruct (main_raises_sim h e Hfit He Hne out) as [? H]. congruence. }
  destruct (readable_or_absent_dec h (in_base "userConfig.m")) as [Hcfg | (e & He & Hne)].
  2: { destruct (main_raises_config h e Hfit Hsim He Hne out) as [? H]. congruence. }
  done.
Qed.

Lemma summary_of_banners v lines :
  summary_of v lines →
  (passed_banner ∈ lines ↔ v = true) ∧ (failed_banner ∈ lines ↔ v = false).
Proof.
  intros (pre & post & -> & Hpre & Hpost).
  assert (Hp : ∀ l, Forall plain l → (passed_banner ∉ l) ∧ (failed_banner ∉ l)).
  { intros l Hl. rewrite Forall_forall in Hl.
    split; intros Hin; apply Hl in Hin; destruct Hin; done. }
  destruct (Hp pre Hpre) as [Hp1 Hp2]. destruct (Hp post Hpost) as [Hq1 Hq2].
  rewrite !elem_of_app, !elem_of_cons.
  destruct v; split; split.
  - done.
  - intros _. right. by left.
  - by intros [? | [? | ?]].
  - done.
  - by intros [? | [? | ?]].
  - done.
  - done.
  - intros _. right. by left.
Qed.

(** X7. When each of the three checked files can be read or is absent,
    [main] returns [True] exactly when the five essential files and the three
    data files exist and the seven fix texts occur in their files; neither
    the cleanup check nor the configuration check enters the result. *)
Theorem main_returns_verdict (h : host) :
  readable_or_absent h (in_base "fit_copula_per_regime.m") →
  readable_or_absent h (in_base "runSimulationEngine.m") →
  readable_or_absent h (in_base "userConfig.m") →
  ∃ lines, ∀ out, main h out = (inr (verdict h), out ++ lines).
Proof.
  intros Hfit Hsim Hcfg.
  destruct (main_outputs h Hfit Hsim Hcfg) as (lines & _ & Hmain). by exists lines.
Qed.

(** X8. Whenever [main] returns, the banner it printed agrees with the
    value returned: ALL CHECKS PASSED exactly for [True], SOME CHECKS FAILED
    exactly for [False]. *)
Theorem main_banner_matches_result (h : host) (out out' : list string) (b : bool) :
  main h out = (inr b, out') →
  ∃ lines, out' = out ++ lines ∧
    (passed_banner ∈ lines ↔ b = true) ∧ (failed_banner ∈ lines ↔ b = false).
Proof.
  intros Hmain. destruct (main_returns_readable h out b out' Hmain) as (Hfit & Hsim & Hcfg).
  destruct (main_outputs h Hfit Hsim Hcfg) as (lines & Hsum & Hrun).
  rewrite Hrun in Hmain. injection Hmain as <- <-.
  exists lines. split; [done |]. by apply summary_of_banners.
Qed.

(** X9. An error other than [FileNotFoundError] while reading one of the
    three checked files is not caught: [main] raises and returns no
    verdict. *)
Theorem main_aborts_on_read_error (h : host) (path : string) (e : exn) :
  path ∈ [in_base "fit_copula_per_regime.m"; in_base "runSimulationEngine.m";
          in_base "userConfig.m"] →
  read_text h path = inl e → e ≠ FileNotFoundError →
  ∀ out, ∃ e' out', main h out = (inl e', out') ∧ e' ≠ FileNotFoundError.
Proof.
  intros Hpath Hread Hne out.
  destruct (readable_or_absent_dec h (in_base "fit_copula_per_regime.m"))
    as [Hfit | (e1 & He1 & Hne1)].
  2: { destruct (main_raises_fit h e1 He1 Hne1 out) as [out' H]. eauto. }
  destruct (readable_or_absent_dec h (in_base "runSimulationEngine.m"))
    as [Hsim | (e2 & He2 & Hne2)].
  2: { destruct (main_raises_sim h e2 Hfit He2 Hne2 out) as [out' H]. eauto. }
  destruct (readable_or_absent_dec h (in_base "userConfig.m"))
    as [Hcfg | (e3 & He3 & Hne3)].
  2: { destruct (main_raises_config h e3 Hfit Hsim He3 Hne3 out) as [out' H]. eauto. }
  exfalso. unfold readable_or_absent in *.
  repeat (apply elem_of_cons in Hpath as [-> | Hpath]);
    [rewrite Hread in Hfit | rewrite Hread in Hsim | rewrite Hread in Hcfg
    | by apply elem_of_nil in Hpath]; done.
Qed.

(** X10. The script ends with status 0 exactly when the three checked files
    could be read or were absent and the verdict is [True]. *)
Theorem exit_status_zero_iff (h : host) :
  exit_status h = 0%Z ↔
  readable_or_absent h (in_base "fit_copula_per_regime.m") ∧
  readable_or_absent h (in_base "runSimulationEngine.m") ∧
  readable_or_absent h (in_base "userConfig.m") ∧
  verdict h = true.
Proof.
  unfold exit_status. split.
  - destruct (main h []) as [[e | b] out'] eqn:Hmain; [done |].
    destruct (main_returns_readable h [] b out' Hmain) as (Hfit & Hsim & Hcfg).
    destruct (main_outputs h Hfit Hsim Hcfg) as (lines & _ & Hrun).
    rewrite Hrun in Hmain. injection Hmain as <- _.
    by destruct (verdict h).
  - intros (Hfit & Hsim & Hcfg & Hv).
    destruct (main_outputs h Hfit Hsim Hcfg) as (lines & _ & Hrun).
    by rewrite Hrun, Hv.
Qed.

(** ** The theorems at sample inputs *)

Lemma main_returns_verdict_witness :
  ∃ lines, ∀ out, main ready_host out = (inr true, out ++ lines).
Proof.
  destruct (main_returns_verdict ready_host) as [lines H].
  - vm_compute. exact I.
  - vm_compute. exact I.
  - vm_compute. exact I.
  - exists lines. exact H.
Defined.

Lemma main_banner_witness :
  ∃ lines, (main ready_host []).2 = [] ++ lines ∧ (passed_banner ∈ lines ↔ true = true).
Proof.
  destruct (main_banner_matches_result ready_host [] (main ready_host []).2 true)
    as (lines & H1 & H2 & _).
  - vm_compute. reflexivity.
  - exists lines. split; assumption.
Defined.

Lemma main_aborts_witness :
  ∃ e' out', main locked_host [] = (inl e', out') ∧ e' ≠ FileNotFoundError.
Proof.
  apply (main_aborts_on_read_error locked_host (in_base "userConfig.m") PermissionError).
  - apply (bool_decide_unpack _). vm_compute. exact I.
  - vm_compute. reflexivity.
  - discriminate.
Defined.

Lemma exit_status_zero_witness : exit_status ready_host = 0%Z.
Proof.
  apply (proj2 (exit_status_zero_iff ready_host)).
  repeat split; vm_compute; (exact I || reflexivity).
Defined.

End ReadinessProofs.

(* ===================================================================== *)
(** * Further properties of the panel assemblers *)
(* ===================================================================== *)

Module PanelMore.
Import Panel PanelProofs Examples PanelNotions MoreExamples.

Lemma prints_at_weaken {A} c (P P' : event → Prop) (m : M A) :
  (∀ e, P e → P' e) → prints_at c P m → prints_at c P' m.
Proof.
  intros HP Hm s Hs. destruct (Hm s Hs) as (evs & H & Hall). exists evs.
  split; [done |]. eapply Forall_impl; eauto.
Qed.

Lemma prints_at_ret {A} c P (x : A) : prints_at c P (mret x).
Proof. intros s <-. exists []. cbn. rewrite app_nil_r. split; [by destruct s | done]. Qed.

Lemma prints_at_raise {A} c P e : prints_at c P (raise (A := A) e).
Proof. intros s <-. exists []. cbn. rewrite app_nil_r. split; [by destruct s | done]. Qed.

Lemma prints_at_print c (P : event → Prop) e : P e → prints_at c P (print e).
Proof. intros He s <-. exists [e]. split; [done | by repeat constructor]. Qed.

Lemma prints_at_lift {A} c P (r : exn + A) : prints_at c P (lift r).
Proof. destruct r; [apply prints_at_raise | apply prints_at_ret]. Qed.

Lemma prints_at_or_raise {A} c P e (o : option A) : prints_at c P (or_raise e o).
Proof. destruct o; [apply prints_at_ret | apply prints_at_raise]. Qed.

Lemma prints_at_bind {A B} c P (m : M A) (f : A → M B) :
  prints_at c P m → (∀ x, prints_at c P (f x)) → prints_at c P (m ≫= f).
Proof.
  intros Hm Hf s Hs. destruct (Hm s Hs) as (evs & H & Hall).
  unfold mbind, M_bind. destruct (m s) as [[e | x] s'] eqn:E; cbn in H; subst s'.
  - by exists evs.
  - destruct (Hf x (State c (stdout s ++ evs)) eq_refl) as (evs' & -> & Hall').
    exists (evs ++ evs'). cbn. rewrite app_assoc. split; [done | by apply Forall_app].
Qed.

Lemma prints_at_get {B} c P (f : gmap string ndarray → M B) :
  prints_at c P (f c) → prints_at c P (get_combined ≫= f).
Proof.
  intros Hf s Hs. unfold mbind, M_bind, get_combined. rewrite Hs. by apply Hf.
Qed.

Lemma prints_at_try {A} c P (body : M A) (handler : exn → M A) :
  prints_at c P body → (∀ e, prints_at c P (handler e)) →
  prints_at c P (try_except body handler).
Proof.
  intros Hm Hf s Hs. destruct (Hm s Hs) as (evs & H & Hall).
  unfold try_except. destruct (body s) as [[e | x] s'] eqn:E; cbn in H; subst s'.
  - destruct (Hf e (State c (stdout s ++ evs)) eq_refl) as (evs' & -> & Hall').
    exists (evs ++ evs'). cbn. rewrite app_assoc. split; [done | by apply Forall_app].
  - by exists evs.
Qed.

Lemma prints_at_for_each {A} c P (l : list A) (body : A → M unit) :
  (∀ x, x ∈ l → prints_at c P (body x)) → prints_at c P (for_each l body).
Proof.
  induction l as [| x l IH]; intros Hb; cbn.
  - apply prints_at_ret.
  - apply prints_at_bind; [apply Hb; by left |].
    intros _. apply IH. intros y Hy. apply Hb. by right.
Qed.

(** The part of a script after the loading loop. *)
Lemma after_assembly_at {A} (m : M unit) (banner saving : string) (verify : M A)
    (c : gmap string ndarray) (evs : list event) (handler : exn → M A)
    (P : event → Prop) :
  m (State ∅ [Info banner]) = (inr (), State c (Info banner :: evs)) →
  prints_at c P verify → (∀ e, prints_at c P (handler e)) → (∀ e, no_raise (handler e)) →
  ∃ b evs', run (print (Info banner) ;; m ;; print (Info saving) ;; try_except verify handler)
            = (inr b, State c (Info banner :: evs ++ Info saving :: evs'))
            ∧ Forall P evs'.
Proof.
  intros Hm Hv Hc Hn. unfold run, mbind, M_bind, print. cbn. rewrite Hm. cbn.
  set (s := State c _).
  destruct (try_no_raise verify handler Hn s) as (b & Hb).
  destruct (prints_at_try c P verify handler Hv Hc s eq_refl) as (evs' & Hs & Hall).
  unfold try_except in *.
  destruct (match verify s with (inl e, s') => handler e s' | (inr x, s') => (inr x, s') end)
    as [r s'] eqn:E.
  cbn in Hb, Hs. subst r s'. exists b, evs'. subst s. cbn.
  by rewrite <- app_assoc.
Qed.

Lemma regime_verification_prints (fs : filesystem matvalue) c :
  prints_at c regime_verification_event
    (lift (scipy_savemat fs "EDA_Results/regimeLabels.mat") ;;
     print (Info "Successfully saved EDA_Results/regimeLabels.mat") ;;
     print (Info "=== Verification ===") ;;
     names ← lift (reload_names fs "EDA_Results/regimeLabels.mat");
     print (Info "Combined structure contains:") ;;
     for_each products (λ product,
       initials ← or_raise IndexError (mapM first_char names);
       if bool_decide (product ∈ initials) then print (FieldPresent product)
       else print (FieldMissing product)) ;;
     print (Info "Ready for Sprint 2: Parameter Estimation!") ;;
     mret true).
Proof.
  apply prints_at_bind; [apply prints_at_lift | intros _].
  apply prints_at_bind; [by apply prints_at_print | intros _].
  apply prints_at_bind; [by apply prints_at_print | intros _].
  apply prints_at_bind; [apply prints_at_lift | intros names].
  apply prints_at_bind; [by apply prints_at_print | intros _].
  apply prints_at_bind.
  - apply prints_at_for_each. intros product _.
    apply prints_at_bind; [apply prints_at_or_raise | intros initials].
    destruct (bool_decide _); by apply prints_at_print.
  - intros _. apply prints_at_bind; [by apply prints_at_print | intros _].
    apply prints_at_ret.
Qed.

Lemma save_handler_prints c (P : event → Prop) e :
  P (SaveError e) → prints_at c P (print (SaveError e) ;; mret false).
Proof.
  intros H. apply prints_at_bind; [by apply prints_at_print | intros _; apply prints_at_ret].
Qed.

(** The console of [combine_regime_labels]: the banner, the status lines of
    the products in order, and the lines of the saving part. *)
Lemma combine_regime_labels_console fs :
  ∃ b evs,
    run (combine_regime_labels fs) =
      (inr b, State (foldl (λ c p, <[p := regime_series fs p]> c) ∅ products)
                    (Info "=== Combining Regime Labels for Sprint 2 ===" ::
                     concat (map (regime_events fs) products) ++
                     Info "Saving combined regimeLabels.mat..." :: evs))
    ∧ Forall regime_verification_event evs.
Proof.
  unfold combine_regime_labels. apply after_assembly_at.
  - by rewrite assemble_regime_labels_run.
  - apply regime_verification_prints.
  - intros e. by apply save_handler_prints.
  - apply save_handler_no_raise.
Qed.

Lemma regime_events_load fs p : Forall load_event (regime_events fs p).
Proof.
  unfold regime_events. destruct (os_path_exists _ _); [| by repeat constructor].
  destruct (scipy_loadmat _ _) as [e | vars]; [by repeat constructor |].
  destruct (first_variable vars) as [[k v] |]; [| by repeat constructor].
  destruct (is_numeric _); by repeat constructor.
Qed.

Lemma for_each_prints {A} (l : list A) (body : A → M unit) (g : A → event) s :
  (∀ x s', x ∈ l → body x s' = (inr (), State (combined s') (stdout s' ++ [g x]))) →
  for_each l body s = (inr (), State (combined s) (stdout s ++ map g l)).
Proof.
  revert s. induction l as [| x l IH]; intros s Hb; cbn.
  - rewrite app_nil_r. by destruct s.
  - unfold mbind, M_bind. rewrite Hb by (by left).
    rewrite IH by (intros y s' Hy; apply Hb; by right).
    cbn. by rewrite <- app_assoc.
Qed.

Lemma mapM_first_char_length (names initials : list string) :
  mapM first_char names = Some initials → Forall (λ i, String.length i = 1%nat) initials.
Proof.
  intros H. apply mapM_Some in H.
  induction H as [| name initial names initials Hfc _ IH]; [done |].
  constructor; [| done]. destruct name; cbn in Hfc; [done |]. by injection Hfc as <-.
Qed.

Lemma mapM_first_char_is_Some (names : list string) :
  is_Some (mapM first_char names) ↔ Forall (λ f, f ≠ "") names.
Proof.
  rewrite mapM_is_Some. split; intros H; (eapply Forall_impl; [exact H |]);
    intros name; destruct name; cbn; try done.
Qed.

Lemma products_not_initial : Forall (λ p, String.length p ≠ 1%nat) products.
Proof. repeat constructor; discriminate. Qed.

(** The state in which the saving part of a script starts. *)
Lemma combine_regime_labels_saving fs :
  ∃ s1 : state,
    combined s1 = foldl (λ c p, <[p := regime_series fs p]> c) ∅ products ∧
    Forall (λ e, load_event e ∨ ∃ t, e = Info t) (stdout s1) ∧
    run (combine_regime_labels fs) =
      try_except
        (lift (scipy_savemat fs "EDA_Results/regimeLabels.mat") ;;
         print (Info "Successfully saved EDA_Results/regimeLabels.mat") ;;
         print (Info "=== Verification ===") ;;
         names ← lift (reload_names fs "EDA_Results/regimeLabels.mat");
         print (Info "Combined structure contains:") ;;
         for_each products (λ product,
           initials ← or_raise IndexError (mapM first_char names);
           if bool_decide (product ∈ initials) then print (FieldPresent product)
           else print (FieldMissing product)) ;;
         print (Info "Ready for Sprint 2: Parameter Estimation!") ;;
         mret true)
        (λ e, print (SaveError e) ;; mret false) s1.
Proof.
  exists (State (foldl (λ c p, <[p := regime_series fs p]> c) ∅ products)
                (Info "=== Combining Regime Labels for Sprint 2 ===" ::
                 concat (map (regime_events fs) products) ++
                 [Info "Saving combined regimeLabels.mat..."])).
  split; [reflexivity |]. split.
  - cbn [stdout]. constructor; [right; eauto |]. apply Forall_app. split.
    + apply Forall_concat_map. intros p.
      eapply Forall_impl; [apply regime_events_load | auto].
    + constructor; [right; eauto | constructor].
  - unfold run, combine_regime_labels.
    unfold mbind at 1 2 3, M_bind at 1 2 3, print at 1 2.
    cbn -[assemble_regime_labels try_except concat].
    rewrite assemble_regime_labels_run. cbn -[try_except concat]. reflexivity.
Qed.

Lemma verification_loop_missing (names initials : list string) s :
  mapM first_char names = Some initials →
  for_each products (λ product,
      initials ← or_raise IndexError (mapM first_char names);
      if bool_decide (product ∈ initials) then print (FieldPresent product)
      else print (FieldMissing product)) s
  = (inr (), State (combined s) (stdout s ++ map FieldMissing products)).
Proof.
  intros Hinit. pose proof (mapM_first_char_length _ _ Hinit) as Hlen.
  apply for_each_prints. intros p s' Hp.
  unfold mbind, M_bind, or_raise. rewrite Hinit. cbn.
  rewrite bool_decide_eq_false_2; [done |]. intros Hin.
  pose proof products_not_initial as Hprod. rewrite Forall_forall in Hprod, Hlen.
  by apply (Hprod p Hp), Hlen.
Qed.

Lemma verification_loop_raises (names : list string) s :
  mapM first_char names = None →
  for_each products (λ product,
      initials ← or_raise IndexError (mapM first_char names);
      if bool_decide (product ∈ initials) then print (FieldPresent product)
      else print (FieldMissing product)) s
  = (inl IndexError, s).
Proof. intros Hinit. cbn. unfold mbind, M_bind, or_raise. by rewrite Hinit. Qed.

(** X12. When the combined regime file is written and read back, the
    verification of [combine_regime_labels] reports every product as
    missing and none as present, whatever was saved: it looks the product
    name up among the first characters of the field names. The script still
    returns [True]. *)
Theorem regime_verification_reports_all_missing (fs : filesystem matvalue)
    (names : list string) :
  scipy_savemat fs "EDA_Results/regimeLabels.mat" = inr () →
  reload_names fs "EDA_Results/regimeLabels.mat" = inr names →
  Forall (λ f, f ≠ "") names →
  ∃ s, run (combine_regime_labels fs) = (inr true, s) ∧
    (∀ p, p ∈ products → FieldMissing p ∈ stdout s) ∧
    (∀ p, FieldPresent p ∉ stdout s).
Proof.
  intros Hsave Hreload Hnames.
  destruct (combine_regime_labels_saving fs) as (s1 & _ & Hload & ->).
  apply mapM_first_char_is_Some in Hnames as [initials Hinit].
  eexists. split.
  - unfold try_except, mbind, M_bind, print. cbn -[for_each].
    rewrite Hsave. cbn -[for_each]. rewrite Hreload. cbn -[for_each].
    rewrite (verification_loop_missing names initials) by done.
    cbn [combined stdout]. reflexivity.
  - cbn [stdout]. split.
    + intros p Hp. rewrite !elem_of_app. left. right.
      apply list_elem_of_fmap. by exists p.
    + intros p Hin.
      repeat match goal with
             | H : _ ∈ _ ++ _ |- _ => apply elem_of_app in H as [H | H]
             | H : _ ∈ _ :: _ |- _ => apply elem_of_cons in H as [H | H]
             | H : _ ∈ [] |- _ => by apply elem_of_nil in H
             | H : FieldPresent _ = _ |- _ => discriminate H
             end.
      * rewrite Forall_forall in Hload. destruct (Hload _ Hin) as [? | [? ?]]; done.
      * apply list_elem_of_fmap in Hin as (q & ? & ?). done.
Qed.

(** X13. [combine_regime_labels] always returns, and returns [True] exactly
    when writing the combined file and reading it back succeed and no field
    name read back is empty; what happened to the product files plays no
    part. *)
Theorem combine_regime_labels_result (fs : filesystem matvalue) :
  ∃ b s, run (combine_regime_labels fs) = (inr b, s) ∧
    (b = true ↔
     scipy_savemat fs "EDA_Results/regimeLabels.mat" = inr () ∧
     ∃ names, reload_names fs "EDA_Results/regimeLabels.mat" = inr names ∧
              Forall (λ f, f ≠ "") names).
Proof.
  destruct (combine_regime_labels_saving fs) as (s1 & _ & _ & ->).
  unfold try_except, mbind, M_bind, print.
  destruct (scipy_savemat fs _) as [e | []] eqn:Hsave; cbn -[for_each].
  { eexists _, _. split; [reflexivity |]. split; [done | by intros [? _]]. }
  destruct (reload_names fs _) as [e | names] eqn:Hreload; cbn -[for_each].
  { eexists _, _. split; [reflexivity |]. split; [done | by intros [_ (? & ? & _)]]. }
  assert (Hd : (∃ initials, mapM first_char names = Some initials)
               ∨ mapM first_char names = None).
  { destruct (mapM first_char names); eauto. }
  destruct Hd as [[initials Hinit] | Hinit].
  - rewrite (verification_loop_missing names initials) by done. cbn.
    eexists _, _. split; [reflexivity |]. split; [| done]. intros _.
    split; [done |]. exists names. split; [done |].
    apply mapM_first_char_is_Some. by eexists.
  - rewrite (verification_loop_raises names) by done. cbn.
    eexists _, _. split; [reflexivity |]. split; [done |].
    intros [_ (names' & [= <-] & Hall)].
    apply mapM_first_char_is_Some in Hall as [? ?]. congruence.
Qed.

Lemma report_line_event c p :
  p ∈ products → (∀ series, c !! p = Some series → reportable series = true) →
  returns_verification_event c (report_line c p).
Proof.
  intros Hp Hrep. destruct (report_line_product c p) as [Hl | (n & v & Hl)];
    rewrite Hl; cbn; by rewrite Hl.
Qed.

Lemma report_returns_prints c p :
  p ∈ products → prints_at c (returns_verification_event c) (report_returns p).
Proof.
  intros Hp s <-.
  assert (Hcases : (∀ a, combined s !! p = Some a → reportable a = true) ∨
                   ∃ series, combined s !! p = Some series ∧ reportable series = false).
  { destruct (combined s !! p) as [series |]; [| by left].
    destruct (reportable series) eqn:Hrep; [left | right; eauto].
    by intros a [= <-]. }
  destruct Hcases as [Hrep | (series & Hc & Hrep)].
  - rewrite report_returns_run by done.
    exists [report_line (combined s) p]. split; [done |].
    apply Forall_singleton. by apply report_line_event.
  - rewrite (report_returns_raises p s series) by done.
    exists []. rewrite app_nil_r. split; [by destruct s | done].
Qed.

Lemma returns_verification_prints (fs : filesystem matvalue) c :
  prints_at c (returns_verification_event c)
    (lift (scipy_savemat fs "EDA_Results/returnsTable.mat") ;;
     print (Info "Successfully saved EDA_Results/returnsTable.mat") ;;
     print (Info "=== Verification ===") ;;
     lift (reload_names fs "EDA_Results/returnsTable.mat") ;;
     print (Info "Combined returns table contains:") ;;
     for_each products report_returns ;;
     print (Info "Returns table ready for Sprint 2!") ;;
     mret true).
Proof.
  apply prints_at_bind; [apply prints_at_lift | intros _].
  apply prints_at_bind; [by apply prints_at_print | intros _].
  apply prints_at_bind; [by apply prints_at_print | intros _].
  apply prints_at_bind; [apply prints_at_lift | intros _].
  apply prints_at_bind; [by apply prints_at_print | intros _].
  apply prints_at_bind.
  - apply prints_at_for_each. intros p Hp. by apply report_returns_prints.
  - intros _. apply prints_at_bind; [by apply prints_at_print | intros _].
    apply prints_at_ret.
Qed.

(** The console of [combine_returns_tables]. *)
Lemma combine_returns_tables_console fs :
  ∃ b evs,
    run (combine_returns_tables fs) =
      (inr b, State (foldl (λ c p, <[p := returns_series fs p]> c) ∅ products)
                    (Info "=== Combining Returns Tables for Sprint 2 ===" ::
                     concat (map (returns_events fs) products) ++
                     Info "Saving combined returnsTable.mat..." :: evs))
    ∧ Forall (returns_verification_event
                (foldl (λ c p, <[p := returns_series fs p]> c) ∅ products)) evs.
Proof.
  unfold combine_returns_tables. apply after_assembly_at.
  - by rewrite assemble_returns_tables_run.
  - apply returns_verification_prints.
  - intros e. by apply save_handler_prints.
  - apply save_handler_no_raise.
Qed.

Lemma combine_returns_tables_saving fs :
  ∃ s1 : state,
    combined s1 = foldl (λ c p, <[p := returns_series fs p]> c) ∅ products ∧
    run (combine_returns_tables fs) =
      try_except
        (lift (scipy_savemat fs "EDA_Results/returnsTable.mat") ;;
         print (Info "Successfully saved EDA_Results/returnsTable.mat") ;;
         print (Info "=== Verification ===") ;;
         lift (reload_names fs "EDA_Results/returnsTable.mat") ;;
         print (Info "Combined returns table contains:") ;;
         for_each products report_returns ;;
         print (Info "Returns table ready for Sprint 2!") ;;
         mret true)
        (λ e, print (SaveError e) ;; mret false) s1.
Proof.
  exists (State (foldl (λ c p, <[p := returns_series fs p]> c) ∅ products)
                (Info "=== Combining Returns Tables for Sprint 2 ===" ::
                 concat (map (returns_events fs) products) ++
                 [Info "Saving combined returnsTable.mat..."])).
  split; [reflexivity |].
  unfold run, combine_returns_tables.
  unfold mbind at 1 2 3, M_bind at 1 2 3, print at 1 2.
  cbn -[assemble_returns_tables try_except concat].
  rewrite assemble_returns_tables_run. cbn -[try_except concat]. reflexivity.
Qed.

Lemma reportable_spec (a : ndarray) (n : nat) :
  shape a = [n] → reportable a = true ↔ n = 0%nat ∨ is_numeric a = true.
Proof.
  unfold reportable. intros ->. destruct n; [by split; [left |] |].
  split; [by right | by intros [? | ?]].
Qed.

(** The verdict of [combine_returns_tables]: the dictionary is the one the
    loading loop has filled, and the result is [True] exactly when the
    combined file is written and read back and the verification loop gets
    past every product. *)
Lemma combine_returns_tables_verdict (fs : filesystem matvalue) :
  ∃ b s, run (combine_returns_tables fs) = (inr b, s) ∧
    combined s = foldl (λ c p, <[p := returns_series fs p]> c) ∅ products ∧
    (b = true ↔
     scipy_savemat fs "EDA_Results/returnsTable.mat" = inr () ∧
     (∃ names, reload_names fs "EDA_Results/returnsTable.mat" = inr names) ∧
     Forall (λ p, reportable (returns_series fs p) = true) products).
Proof.
  destruct (scipy_savemat fs "EDA_Results/returnsTable.mat") as [e | []] eqn:Hsave.
  { destruct (combine_returns_tables_saving fs) as (s1 & Hc & ->).
    unfold try_except, mbind, M_bind, print. rewrite Hsave. cbn -[for_each].
    eexists _, _. split; [reflexivity |]. split; [done |].
    split; [done | by intros [? _]]. }
  destruct (reload_names fs "EDA_Results/returnsTable.mat") as [e | names] eqn:Hreload.
  { destruct (combine_returns_tables_saving fs) as (s1 & Hc & ->).
    unfold try_except, mbind, M_bind, print. rewrite Hsave. cbn -[for_each].
    rewrite Hreload. cbn -[for_each].
    eexists _, _. split; [reflexivity |]. split; [done |].
    split; [done | by intros (_ & [? ?] & _)]. }
  destruct (combine_returns_tables_verified fs names Hsave Hreload)
    as (before & c & Hc & _ & ->).
  assert (Hlookup : ∀ p, p ∈ products → c !! p = Some (returns_series fs p)).
  { intros p Hp. rewrite Hc. by apply returns_panel_lookup. }
  destruct (first_failure (λ p, reportable (returns_series fs p)) products)
    as [Hall | (pre & p & post & Hsplit & Hpre & Hp)].
  - rewrite for_each_report; cycle 1.
    { cbn [combined]. intros p a Hp. rewrite (Hlookup p Hp). intros [= <-].
      rewrite Forall_forall in Hall. by apply Hall. }
    eexists _, _. split; [reflexivity |]. split; [done |]. split; [| done].
    intros _. split; [done |]. split; [by exists names | done].
  - assert (Hin : p ∈ products) by (rewrite Hsplit, elem_of_app; right; by left).
    rewrite (for_each_report_raises products pre p post (returns_series fs p));
      [| done | | by apply Hlookup | done]; cycle 1.
    { cbn [combined]. intros q a Hq.
      assert (Hqin : q ∈ products) by (rewrite Hsplit, elem_of_app; by left).
      rewrite (Hlookup q Hqin). intros [= <-].
      rewrite Forall_forall in Hpre. by apply Hpre. }
    eexists _, _. split; [reflexivity |]. split; [done |]. split; [done |].
    intros (_ & _ & Hall). rewrite Forall_forall in Hall.
    specialize (Hall p Hin). cbn in Hall. congruence.
Qed.

(** X14. [combine_returns_tables] always returns, and returns [True] exactly
    when writing the combined file and reading it back succeed and every
    stored series is empty or numeric. What happened to the product files
    plays no other part; but a [returnsTable] that is a struct with at least
    one element gives an object series, on which [np.isnan] raises in the
    verification loop: the script then returns [False], after the combined
    file has been written. *)
Theorem combine_returns_tables_result (fs : filesystem matvalue) :
  ∃ b s, run (combine_returns_tables fs) = (inr b, s) ∧
    (b = true ↔
     scipy_savemat fs "EDA_Results/returnsTable.mat" = inr () ∧
     (∃ names, reload_names fs "EDA_Results/returnsTable.mat" = inr names) ∧
     ∀ p, p ∈ products →
       ∃ series n, combined s !! p = Some series ∧ shape series = [n] ∧
         (n = 0%nat ∨ is_numeric series = true)) ∧
    (∀ p vars dims f0 fields,
       p ∈ products →
       os_path_exists fs (returns_filename p) = true →
       scipy_loadmat fs (returns_filename p) = inr vars →
       getitem vars "returnsTable" = Some (Structured dims f0 fields) →
       foldr Nat.mul 1%nat dims ≠ 0%nat →
       b = false).
Proof.
  destruct (combine_returns_tables_verdict fs) as (b & s & Hrun & Hc & Hb).
  exists b, s. split; [done |].
  assert (Hlookup : ∀ p, p ∈ products → combined s !! p = Some (returns_series fs p)).
  { intros p Hp. rewrite Hc. by apply returns_panel_lookup. }
  split.
  - rewrite Hb. split.
    + intros (Hsave & Hreload & Hall). split; [done |]. split; [done |].
      intros p Hp. destruct (returns_series_shape fs p) as [n Hn].
      exists (returns_series fs p), n. split; [by apply Hlookup |]. split; [done |].
      apply (reportable_spec _ n Hn). rewrite Forall_forall in Hall. by apply Hall.
    + intros (Hsave & Hreload & Hall). split; [done |]. split; [done |].
      apply Forall_forall. intros p Hp.
      destruct (Hall p Hp) as (series & n & Hl & Hn & Hcases).
      rewrite (Hlookup p Hp) in Hl. injection Hl as <-.
      by apply (reportable_spec _ n Hn).
  - intros p vars dims f0 fields Hp Hex Hload Hrt Hdims.
    destruct b; [| done]. exfalso.
    destruct (proj1 Hb eq_refl) as (_ & _ & Hall).
    rewrite Forall_forall in Hall. specialize (Hall p Hp). cbn in Hall.
    destruct (selected_field_in p (f0 :: fields).*1) as (name & Hsel & Hin); [done |].
    destruct (field_lookup_in name (f0 :: fields) Hin) as [column Hcol].
    assert (Hcolumn : returns_column p (Structured dims f0 fields)
                      = Some (field_array dims column)).
    { unfold returns_column, dtype_names. rewrite Hsel. cbn [mbind option_bind].
      by rewrite Hcol. }
    unfold returns_series in Hall. rewrite Hex, Hload, Hrt in Hall.
    cbn [mbind option_bind] in Hall. rewrite Hcolumn in Hall.
    unfold reportable, flatten, size, field_array in Hall. cbn in Hall.
    destruct (foldr Nat.mul 1%nat dims); done.
Qed.

Lemma concat_map_split {A B} (f : A → list B) (l : list A) (x : A) :
  x ∈ l → ∃ pre post, concat (map f l) = pre ++ f x ++ post.
Proof.
  intros (l1 & l2 & ->)%list_elem_of_split.
  exists (concat (map f l1)), (concat (map f l2)).
  by rewrite map_app, concat_app.
Qed.

(** The status lines of a product sit together on the console. *)
Lemma regime_console_block fs p :
  p ∈ products →
  ∃ b s pre post,
    run (combine_regime_labels fs) = (inr b, s) ∧
    combined s !! p = Some (regime_series fs p) ∧
    stdout s = pre ++ regime_events fs p ++ post.
Proof.
  intros Hp. destruct (combine_regime_labels_console fs) as (b & evs & -> & _).
  destruct (concat_map_split (regime_events fs) products p Hp) as (pre & post & ->).
  eexists _, _, (_ :: pre), (post ++ _ :: evs). split; [reflexivity |].
  cbn [combined stdout]. split; [by rewrite panel_lookup, decide_True |].
  by rewrite <- !app_assoc.
Qed.

Lemma returns_console_block fs p :
  p ∈ products →
  ∃ b s pre post,
    run (combine_returns_tables fs) = (inr b, s) ∧
    combined s !! p = Some (returns_series fs p) ∧
    stdout s = pre ++ returns_events fs p ++ post.
Proof.
  intros Hp. destruct (combine_returns_tables_console fs) as (b & evs & -> & _).
  destruct (concat_map_split (returns_events fs) products p Hp) as (pre & post & ->).
  eexists _, _, (_ :: pre), (post ++ _ :: evs). split; [reflexivity |].
  cbn [combined stdout]. split; [by rewrite panel_lookup, decide_True |].
  by rewrite <- !app_assoc.
Qed.

(** X15. Every entry of the returns dictionary is one-dimensional: a loaded
    array of any shape and dtype, a matrix or an array of more dimensions
    included, is stored flattened, its elements in C order and its length
    the product of its dimensions. *)
Theorem returns_always_flattened (fs : filesystem matvalue) :
  ∃ b s, run (combine_returns_tables fs) = (inr b, s) ∧
    (∀ p, p ∈ products → ∃ v n, combined s !! p = Some v ∧ shape v = [n]) ∧
    (∀ p vars rt a,
       p ∈ products →
       os_path_exists fs (returns_filename p) = true →
       scipy_loadmat fs (returns_filename p) = inr vars →
       getitem vars "returnsTable" = Some rt →
       returns_column p rt = Some a →
       combined s !! p = Some (NdArray (dtype_of a) [size a] (data a))).
Proof.
  destruct (combine_returns_tables_run fs) as (b & evs & ->).
  eexists _, _. split; [reflexivity |]. cbn [combined]. split.
  - intros p Hp. destruct (returns_series_shape fs p) as [n Hn].
    exists (returns_series fs p), n. by rewrite panel_lookup, decide_True.
  - intros p vars rt a Hp Hex Hload Hrt Hcol.
    rewrite panel_lookup, decide_True by done.
    unfold returns_series. rewrite Hex, Hload, Hrt. cbn. by rewrite Hcol.
Qed.

Lemma is_row_or_column_false (a : matarray) :
  pages a ≠ [] ∨ (rows a ≠ 1%nat ∧ cols a ≠ 1%nat) →
  is_row_or_column (to_ndarray a) = false.
Proof.
  destruct a as [r c pg el]. unfold is_row_or_column, ndim. cbn.
  intros [Hpg | [Hr Hc]].
  - destruct pg; [done |]. reflexivity.
  - apply andb_false_iff. right. apply orb_false_iff.
    split; by apply Nat.eqb_neq.
Qed.

(** X16. A regime-label array that is neither a row nor a column is stored
    with its shape unchanged, and the observation count printed for it is
    its number of rows, not its number of elements. *)
Theorem regime_matrix_kept (fs : filesystem matvalue) (p : string)
    (vars : matfile matvalue) (k : string) (a : matarray) :
  p ∈ products →
  os_path_exists fs (regime_filename p) = true →
  scipy_loadmat fs (regime_filename p) = inr vars →
  first_variable vars = Some (k, Plain a) →
  pages a ≠ [] ∨ (rows a ≠ 1%nat ∧ cols a ≠ 1%nat) →
  ∃ b s pre post,
    run (combine_regime_labels fs) = (inr b, s) ∧
    combined s !! p = Some (to_ndarray a) ∧
    stdout s = pre ++ [Loading (regime_filename p);
                       LoadedObs (rows a) (np_unique (valid_values (to_ndarray a)))]
                   ++ post.
Proof.
  intros Hp Hex Hload Hfirst Hshape.
  destruct (regime_console_block fs p Hp) as (b & s & pre & post & Hrun & Hc & Hout).
  exists b, s, pre, post. split; [done |].
  unfold regime_series in Hc. unfold regime_events in Hout.
  rewrite Hex, Hload, Hfirst in Hc, Hout.
  change (as_ndarray (Plain a)) with (to_ndarray a) in Hc, Hout.
  change (is_numeric (to_ndarray a)) with true in Hc, Hout.
  cbv zeta in Hout.
  unfold normalize in Hc, Hout. rewrite is_row_or_column_false in Hc, Hout by done.
  done.
Qed.

Lemma getitem_None {V} (vars : matfile V) (key : string) :
  key ∉ vars.*1 → getitem vars key = None.
Proof.
  unfold getitem. induction vars as [| [k v] vars IH]; cbn; [done |].
  intros Hnin. apply not_elem_of_cons in Hnin as [Hne Hnin].
  destruct (String.eqb k key) eqn:E; [apply String.eqb_eq in E; congruence |].
  by apply IH.
Qed.

(** X17. A returns file that loads but has no variable named [returnsTable]
    gives the empty array and the line [No returnsTable variable found],
    whatever else it holds: unlike the regime script, the returns script
    never falls back on another variable. *)
Theorem returns_table_variable_required (fs : filesystem matvalue) (p : string)
    (vars : matfile matvalue) :
  p ∈ products →
  os_path_exists fs (returns_filename p) = true →
  scipy_loadmat fs (returns_filename p) = inr vars →
  "returnsTable" ∉ vars.*1 →
  ∃ b s pre post,
    run (combine_returns_tables fs) = (inr b, s) ∧
    combined s !! p = Some empty_array ∧
    stdout s = pre ++ [Loading (returns_filename p); NoReturnsTable] ++ post.
Proof.
  intros Hp Hex Hload Hnin.
  destruct (returns_console_block fs p Hp) as (b & s & pre & post & Hrun & Hc & Hout).
  exists b, s, pre, post. split; [done |].
  unfold returns_series in Hc. unfold returns_events in Hout.
  rewrite Hex, Hload, getitem_None in Hc, Hout by done. done.
Qed.

Lemma flatten_wf (a : ndarray) : wf a → wf (flatten a).
Proof. unfold wf, flatten, size. cbn. lia. Qed.

Lemma returns_column_wf product (rt : matvalue) (a : ndarray) :
  matvalue_wf rt → returns_column product rt = Some a → wf a.
Proof.
  intros Hwf Hcol.
  apply returns_column_source in Hcol
    as [(m & -> & ->) | [(dims & items & -> & ->)
        | (dims & f0 & fields & name & column & -> & Hin & ->)]].
  - exact Hwf.
  - exact Hwf.
  - cbn in Hwf. rewrite Forall_forall in Hwf. exact (Hwf _ Hin).
Qed.

Lemma returns_series_wf fs p : returns_fs_wf fs → wf (returns_series fs p).
Proof.
  intros Hfs. unfold returns_series.
  destruct (os_path_exists _ _); [| done].
  destruct (scipy_loadmat fs _) as [e | vars] eqn:Hload; [done |].
  destruct (getitem vars "returnsTable") as [rt |] eqn:Hrt; [| done]. cbn.
  destruct (returns_column p rt) as [a |] eqn:Hcol; [| done].
  apply flatten_wf. eapply returns_column_wf; [| exact Hcol].
  eapply Hfs; [exact Hload |]. by apply find_key_elem_of.
Qed.

Lemma count_valid_le (a : ndarray) : (count_valid a ≤ length (data a))%nat.
Proof. unfold count_valid. apply length_filter. Qed.

(** X18. Every report line of [combine_returns_tables] is about a product of
    the universe whose stored series is numeric and not empty; it gives the
    length of that series and its number of non-NaN entries, which never
    exceeds the length (the arrays of the files having as many elements as
    their shapes say). *)
Theorem returns_reports_sound (fs : filesystem matvalue) :
  returns_fs_wf fs →
  ∃ b s, run (combine_returns_tables fs) = (inr b, s) ∧
    ∀ p n v, ReturnsReport p n v ∈ stdout s →
      p ∈ products ∧
      ∃ series, combined s !! p = Some series ∧ is_numeric series = true ∧
        n = length (data series) ∧ (0 < n)%nat ∧
        v = count_valid series ∧ (v ≤ n)%nat.
Proof.
  intros Hfs. destruct (combine_returns_tables_console fs) as (b & evs & -> & Hevs).
  eexists _, _. split; [reflexivity |]. cbn [combined stdout].
  set (c := foldl _ _ _) in *.
  intros p n v Hin.
  assert (Hev : ReturnsReport p n v ∈ evs).
  { apply elem_of_cons in Hin as [? | Hin]; [done |].
    apply elem_of_app in Hin as [Hin | Hin].
    - exfalso. assert (Hl : Forall load_event (concat (map (returns_events fs) products))).
      { apply Forall_concat_map. intros q. apply returns_events_load. }
      rewrite Forall_forall in Hl. exact (Hl _ Hin).
    - by apply elem_of_cons in Hin as [? | Hin]. }
  rewrite Forall_forall in Hevs. destruct (Hevs _ Hev) as (Hp & Hline & Hrep).
  split; [done |]. exists (returns_series fs p).
  assert (Hc : c !! p = Some (returns_series fs p)).
  { unfold c. by rewrite panel_lookup, decide_True. }
  split; [done |]. specialize (Hrep _ Hc).
  unfold report_line in Hline. rewrite Hc in Hline.
  destruct (returns_series_shape fs p) as [m Hm]. rewrite Hm in Hline.
  destruct (0 <? m)%nat eqn:Hpos; [| done].
  injection Hline as <- <-. apply Nat.ltb_lt in Hpos.
  split.
  { apply (reportable_spec _ m Hm) in Hrep as [-> | Hnum]; [lia | done]. }
  pose proof (returns_series_wf fs p Hfs) as Hwf. unfold wf, size in Hwf.
  rewrite Hm in Hwf. cbn in Hwf.
  assert (Hlen : m = length (data (returns_series fs p))) by lia.
  split; [done |]. split; [done |]. split; [done |].
  rewrite Hlen. apply count_valid_le.
Qed.

Lemma list_ascii_of_string_app (s t : string) :
  list_ascii_of_string (s +:+ t) = list_ascii_of_string s ++ list_ascii_of_string t.
Proof. induction s as [| c s IH]; simpl; [done | by f_equal]. Qed.

Lemma list_ascii_of_string_inj (s t : string) :
  list_ascii_of_string s = list_ascii_of_string t → s = t.
Proof.
  intros H. rewrite <- (string_of_list_ascii_of_string s),
    <- (string_of_list_ascii_of_string t). by rewrite H.
Qed.

Lemma filename_inj (prefix suffix p q : string) :
  prefix +:+ p +:+ suffix = prefix +:+ q +:+ suffix → p = q.
Proof.
  intros H. apply (f_equal list_ascii_of_string) in H.
  rewrite !list_ascii_of_string_app in H.
  apply app_inv_head, app_inv_tail in H. by apply list_ascii_of_string_inj.
Qed.

Lemma file_not_found_in_events (events : string → list event)
    (filename : string → string) (exists_ : string → bool) (p : string) :
  (∀ q, FileNotFound (filename p) ∈ events q ↔ q = p ∧ exists_ (filename p) = false) →
  ∀ (banner saving : event) (evs : list event) (P : event → Prop),
    (∀ f, ¬ P (FileNotFound f)) → banner ≠ FileNotFound (filename p) →
    saving ≠ FileNotFound (filename p) → Forall P evs → p ∈ products →
    FileNotFound (filename p) ∈ banner :: concat (map events products) ++ saving :: evs
    ↔ exists_ (filename p) = false.
Proof.
  intros Hev banner saving evs P HP Hb Hs Hevs Hp.
  rewrite elem_of_cons, elem_of_app, elem_of_cons. split.
  - intros [? | [Hin | [? | Hin]]]; try done.
    + apply list_elem_of_In, in_concat in Hin as (l & Hl & Hin).
      apply in_map_iff in Hl as (q & <- & _).
      apply list_elem_of_In, Hev in Hin. tauto.
    + rewrite Forall_forall in Hevs. by apply Hevs, HP in Hin.
  - intros Hex. right. left. apply list_elem_of_In, in_concat.
    exists (events p). split; [apply in_map; by apply list_elem_of_In |].
    apply list_elem_of_In, Hev. done.
Qed.

Lemma regime_events_not_found fs p q :
  FileNotFound (regime_filename p) ∈ regime_events fs q ↔
  q = p ∧ os_path_exists fs (regime_filename p) = false.
Proof.
  unfold regime_events. destruct (os_path_exists fs (regime_filename q)) eqn:Hex.
  - split.
    + intros Hin. apply elem_of_cons in Hin as [? | Hin]; [done |].
      destruct (scipy_loadmat _ _) as [e | vars].
      * by apply list_elem_of_singleton in Hin.
      * destruct (first_variable vars) as [[k v] |];
          [destruct (is_numeric _) |]; by apply list_elem_of_singleton in Hin.
    + intros [-> Hf]. congruence.
  - rewrite list_elem_of_singleton. split.
    + intros [= H]. apply filename_inj in H. subst q. done.
    + intros [-> _]. done.
Qed.

Lemma returns_events_not_found fs p q :
  FileNotFound (returns_filename p) ∈ returns_events fs q ↔
  q = p ∧ os_path_exists fs (returns_filename p) = false.
Proof.
  unfold returns_events. destruct (os_path_exists fs (returns_filename q)) eqn:Hex.
  - split.
    + intros Hin. apply elem_of_cons in Hin as [? | Hin]; [done |].
      destruct (scipy_loadmat _ _) as [e | vars].
      * by apply list_elem_of_singleton in Hin.
      * destruct (_ ≫= _); by apply list_elem_of_singleton in Hin.
    + intros [-> Hf]. congruence.
  - rewrite list_elem_of_singleton. split.
    + intros [= H]. apply filename_inj in H. subst q. done.
    + intros [-> _]. done.
Qed.

(** X19. Both scripts print the file-not-found line of a product exactly
    when that product's file does not exist. *)
Theorem file_not_found_reported :
  (∀ (fs : filesystem matvalue), ∃ b s,
     run (combine_regime_labels fs) = (inr b, s) ∧
     ∀ p, p ∈ products →
       (FileNotFound (regime_filename p) ∈ stdout s ↔
        os_path_exists fs (regime_filename p) = false)) ∧
  (∀ (fs : filesystem matvalue), ∃ b s,
     run (combine_returns_tables fs) = (inr b, s) ∧
     ∀ p, p ∈ products →
       (FileNotFound (returns_filename p) ∈ stdout s ↔
        os_path_exists fs (returns_filename p) = false)).
Proof.
  split; intros fs.
  - destruct (combine_regime_labels_console fs) as (b & evs & -> & Hevs).
    eexists _, _. split; [reflexivity |]. cbn [stdout]. intros p Hp.
    apply (file_not_found_in_events (regime_events fs) regime_filename
             (os_path_exists fs) p) with (P := regime_verification_event); try done.
    + intros q. apply regime_events_not_found.
    + intros f H. exact H.
  - destruct (combine_returns_tables_console fs) as (b & evs & -> & Hevs).
    eexists _, _. split; [reflexivity |]. cbn [stdout]. intros p Hp.
    apply (file_not_found_in_events (returns_events fs) returns_filename
             (os_path_exists fs) p)
      with (P := returns_verification_event
                   (foldl (λ c p, <[p := returns_series fs p]> c) ∅ products)); try done.
    + intros q. apply returns_events_not_found.
    + intros f H. exact H.
Qed.

Lemma primary_match_false product f :
  primary_match product f = false →
  contains product f = false ∧ (f = "Timestamp" ∨ f = "Time").
Proof.
  unfold primary_match. intros [Hc Hn]%orb_false_iff. split; [done |].
  apply andb_false_iff in Hn as [Hn | Hn]; apply negb_false_iff, String.eqb_eq in Hn; auto.
Qed.

Lemma timestamp_names_match f : f = "Timestamp" ∨ f = "Time" → matches_time_pattern f = true.
Proof. by intros [-> | ->]. Qed.

(** X20. With field names that are not empty, the second loop never decides:
    the selection is the first field that passes the test of the first loop,
    and the first field of the record when none does. *)
Theorem selection_fallback_unused (product : string) (field_names : list string) :
  Forall (λ f, f ≠ "") field_names →
  selected_field product field_names = first_match_or_head product field_names.
Proof.
  intros Hne. unfold selected_field, first_match_or_head, data_field.
  destruct (List.find (primary_match product) field_names) as [f |] eqn:Hf; cbn [truthy].
  - apply find_some in Hf as [Hin _]. apply list_elem_of_In in Hin.
    rewrite Forall_forall in Hne. apply Hne in Hin.
    by apply String.eqb_neq in Hin as ->.
  - unfold non_time_fields. rewrite filter_none; [done |].
    apply Forall_forall. intros g Hg. apply list_elem_of_In in Hg.
    pose proof (List.find_none _ _ Hf g Hg) as Hp.
    apply primary_match_false in Hp as [_ Ht].
    by rewrite non_time_test, (timestamp_names_match g Ht).
Qed.

(** X21. When every field declared before the first field that contains the
    product name is [Timestamp] or [Time], the code selects that field, as
    the precedence of the specification does. *)
Theorem selection_agrees_with_spec (product : string) (pre post : list string) (f : string) :
  Forall (λ g, (g = "Timestamp" ∨ g = "Time") ∧ contains product g = false) pre →
  contains product f = true → f ≠ "" →
  selected_field product (pre ++ f :: post) = Some f ∧
  spec_selected_field product (pre ++ f :: post) = Some f.
Proof.
  intros Hpre Hf Hne. split.
  - unfold selected_field, data_field. rewrite find_first.
    + cbn. by apply String.eqb_neq in Hne as ->.
    + eapply Forall_impl; [exact Hpre |]. intros g [[-> | ->] Hc]; unfold primary_match;
        by rewrite Hc.
    + unfold primary_match. by rewrite Hf.
  - unfold spec_selected_field. rewrite find_first; [done | | done].
    eapply Forall_impl; [exact Hpre |]. by intros g [_ Hc].
Qed.

Lemma StronglySorted_remove_dups (l : list Qc) :
  StronglySorted Qcle l → StronglySorted Qclt (remove_dups l).
Proof.
  induction 1 as [| x l Hl IH Hx]; cbn; [constructor |].
  destruct (decide_rel (∈) x l) as [Hin | Hnin]; [done |].
  constructor; [done |].
  apply Forall_forall. intros y Hy. rewrite elem_of_remove_dups in Hy.
  rewrite Forall_forall in Hx.
  destruct (Qcle_lt_or_eq _ _ (Hx y Hy)) as [? | ->]; done.
Qed.

(** X22. The regimes a status line lists are the distinct non-NaN values of
    the array, in strictly increasing order. *)
Theorem unique_regimes_listed (a : ndarray) :
  StronglySorted Qclt (np_unique (valid_values a)) ∧
  ∀ q, q ∈ np_unique (valid_values a) ↔ Num q ∈ data a.
Proof.
  unfold np_unique. split.
  - apply StronglySorted_remove_dups, StronglySorted_merge_sort; apply _.
  - intros q. rewrite elem_of_remove_dups, merge_sort_Permutation.
    unfold valid_values. rewrite list_elem_of_omap. split.
    + intros ([q' | | o | r] & Hin & Hq); [| done ..]. by injection Hq as ->.
    + intros Hin. by exists (Num q).
Qed.

Lemma startswith_spec (s p : string) :
  startswith s p = true ↔ ∃ rest, s = p +:+ rest.
Proof.
  revert s. induction p as [| c p IH]; intros [| d s]; cbn.
  - split; [intros _; by exists "" | done].
  - split; [intros _; by exists (String d s) | done].
  - split; [done | by intros [? ?]].
  - destruct (decide (c = d)) as [-> | Hne].
    + rewrite IH. split; intros [rest H]; exists rest; [by rewrite H | by injection H].
    + split; [done |]. intros [rest H]. by injection H.
Qed.

(** X23. The test [product in field] holds exactly when the field name is
    some text, the product name, and some text. *)
Theorem contains_spec (needle hay : string) :
  contains needle hay = true ↔ ∃ pre post, hay = pre +:+ needle +:+ post.
Proof.
  induction hay as [| c hay IH]; cbn [contains].
  - rewrite orb_false_r, startswith_spec. split.
    + intros [rest H]. by exists "", rest.
    + intros (pre & post & H). destruct pre; [by exists post | done].
  - rewrite orb_true_iff, startswith_spec, IH. split.
    + intros [[rest H] | (pre & post & H)].
      * by exists "", rest.
      * exists (String c pre), post. cbn. by rewrite H.
    + intros (pre & post & H). destruct pre as [| d pre].
      * left. by exists post.
      * right. exists pre, post. by injection H.
Qed.

(** ** The theorems at sample inputs *)

Lemma regime_verification_witness :
  ∃ s, run (combine_regime_labels labels_fs) = (inr true, s) ∧
    FieldMissing "nodalPrices" ∈ stdout s.
Proof.
  destruct (regime_verification_reports_all_missing labels_fs products)
    as (s & Hrun & Hmissing & _).
  - reflexivity.
  - reflexivity.
  - repeat constructor; discriminate.
  - exists s. split; [exact Hrun |]. apply Hmissing. in_products.
Defined.

Lemma regime_matrix_witness :
  ∃ b s, run (combine_regime_labels matrix_fs) = (inr b, s) ∧
    combined s !! "regup" = Some (to_ndarray matrix_labels).
Proof.
  destruct (regime_matrix_kept matrix_fs "regup" matrix_vars "regimeLabels" matrix_labels)
    as (b & s & pre & post & Hrun & Hc & _).
  - in_products.
  - reflexivity.
  - reflexivity.
  - reflexivity.
  - right. split; discriminate.
  - exists b, s. split; assumption.
Defined.

Lemma returns_table_variable_witness :
  ∃ b s, run (combine_returns_tables renamed_fs) = (inr b, s) ∧
    combined s !! "nonspin" = Some empty_array.
Proof.
  destruct (returns_table_variable_required renamed_fs "nonspin" renamed_vars)
    as (b & s & pre & post & Hrun & Hc & _).
  - in_products.
  - reflexivity.
  - reflexivity.
  - apply (bool_decide_unpack _). vm_compute. exact I.
  - exists b, s. split; assumption.
Defined.

Lemma returns_fs_arrays : returns_fs_wf returns_fs.
Proof.
  intros path vars k v Hload Hin. unfold returns_fs in Hload. cbn in Hload.
  repeat (destruct (bool_decide _); [injection Hload as <- |]); [.. | discriminate];
    repeat (apply elem_of_cons in Hin as [Hin | Hin]; [injection Hin as -> -> |]);
    try reflexivity; exfalso; exact (proj1 (elem_of_nil _) Hin).
Defined.

Lemma returns_reports_witness :
  ∃ b s series, run (combine_returns_tables returns_fs) = (inr b, s) ∧
    ReturnsReport "nodalPrices" 3 2 ∈ stdout s ∧
    combined s !! "nodalPrices" = Some series ∧ is_numeric series = true ∧
    3%nat = length (data series) ∧ 2%nat = count_valid series ∧ (2 ≤ 3)%nat.
Proof.
  destruct (returns_reports_sound returns_fs returns_fs_arrays) as (b & s & Hrun & Hsound).
  assert (Hs : s = (run (combine_returns_tables returns_fs)).2) by (rewrite Hrun; reflexivity).
  assert (Hin : ReturnsReport "nodalPrices" 3 2 ∈ stdout s).
  { rewrite Hs. vm_compute. do 16 right. left. }
  destruct (Hsound "nodalPrices" 3%nat 2%nat Hin)
    as (_ & series & Hl & Hnum & Hn & _ & Hv & Hle).
  exists b, s, series. repeat split; assumption.
Defined.

Lemma selection_fallback_witness :
  selected_field "regup" ["Time"; "Timestamp"] = Some "Time".
Proof.
  apply (selection_fallback_unused "regup" ["Time"; "Timestamp"]).
  repeat constructor; discriminate.
Defined.

Lemma selection_agrees_witness :
  selected_field "nodalPrices" (["Timestamp"] ++ "nodalPrices" :: ["hubPrices"])
    = Some "nodalPrices" ∧
  spec_selected_field "nodalPrices" (["Timestamp"] ++ "nodalPrices" :: ["hubPrices"])
    = Some "nodalPrices".
Proof.
  apply (selection_agrees_with_spec "nodalPrices" ["Timestamp"] ["hubPrices"] "nodalPrices").
  - repeat constructor.
  - reflexivity.
  - discriminate.
Defined.

End PanelMore.
